(** * CollegeDunia listing scrapers: a shallow embedding and its properties

    The repository holds several generations of one scraper:
    - [collegedunia_scraper_ver3_28dec.py]  (module [Ver3]),
    - [collegedunia_scraper_ver4_28dec.py]  (module [Ver4]),
    - [scraping.py]                         (module [Scraping]),
    - [collegedunia_scraper_stage1.py]      (module [Stage1]).

    Python strings are embedded as [string] (sequences of 8-bit
    characters), Python [int] as [Z], the dict built by
    [parse_college_row] as a record with its eight keys, the parsed page
    ([BeautifulSoup]) as a tree of elements, and the web site as a
    function from the page number a call asks for to the answer of
    [fetch_page] ([None] for a failed request). *)

From Stdlib Require Import String Ascii List ZArith Bool Arith Lia Sorted.
Import ListNotations.
Open Scope string_scope.
Open Scope Z_scope.
Open Scope list_scope.
Set Warnings "-register-all".

(* ================================================================== *)
(** ** Python string methods used by the scrapers *)
(* ================================================================== *)

Module Py.

(** [str.isspace] on one character, restricted to the 8-bit range the
    embedding covers: TAB, LF, VT, FF, CR, FS, GS, RS, US and SPACE. *)
Definition is_space (c : ascii) : bool :=
  let n := nat_of_ascii c in
  (((9 <=? n) && (n <=? 13)) || ((28 <=? n) && (n <=? 32)))%nat.

(** Truth value of a string: [if s:] holds for a non-empty [s]. *)
Definition truthy (s : string) : bool :=
  match s with EmptyString => false | String _ _ => true end.

Fixpoint lstrip (s : string) : string :=
  match s with
  | EmptyString => EmptyString
  | String c s' => if is_space c then lstrip s' else s
  end.

Fixpoint rstrip (s : string) : string :=
  match s with
  | EmptyString => EmptyString
  | String c s' =>
      let r := rstrip s' in
      if is_space c && negb (truthy r) then EmptyString else String c r
  end.

(** [s.strip()] *)
Definition strip (s : string) : string := rstrip (lstrip s).

(** Cut [s] at every character satisfying [sep]; empty pieces are kept,
    and the result always has at least one piece, as [s.split(",")]. *)
Fixpoint split_at (sep : ascii -> bool) (s : string) : list string :=
  match s with
  | EmptyString => [EmptyString]
  | String c s' =>
      if sep c then EmptyString :: split_at sep s'
      else match split_at sep s' with
           | [] => [String c EmptyString]
           | w :: ws => String c w :: ws
           end
  end.

(** [s.split(",")] *)
Definition split_comma (s : string) : list string :=
  split_at (Ascii.eqb ","%char) s.

(** [s.split()]: cut at runs of whitespace, no empty piece. *)
Definition split (s : string) : list string :=
  filter truthy (split_at is_space s).

(** [sep.join(parts)] *)
Definition join (sep : string) (parts : list string) : string :=
  String.concat sep parts.

(** [len(l) < n], [len(l) > n] and [len(l) >= n] on lists. *)
Definition len {A} (l : list A) : Z := Z.of_nat (length l).

(** [range(a, b)] *)
Definition range (a b : Z) : list Z :=
  map (fun i => a + Z.of_nat i) (seq 0 (Z.to_nat (b - a))).

End Py.

(* ================================================================== *)
(** ** The part of BeautifulSoup the scrapers call *)
(* ================================================================== *)

Module Bs4.

(** A parsed document: text nodes and elements with their attributes. *)
Inductive node : Type :=
| Text (s : string)
| Elem (name : string) (attrs : list (string * string)) (children : list node).

(** What a selector looks at on one element: its name and attributes. *)
Definition head : Type := (string * list (string * string))%type.

(** A [Tag] object: an element together with the chain of its
    ancestors, nearest first (selectors look upwards through it). *)
Record tag : Type := mkTag {
  ancestors : list head;
  tname : string;
  tattrs : list (string * string);
  tchildren : list node
}.

Definition head_of (t : tag) : head := (tname t, tattrs t).

(** The [BeautifulSoup] object itself: the root of the tree. *)
Definition document (nodes : list node) : tag :=
  mkTag [] "[document]" [] nodes.

(** [tag.get(key)] / [tag[key]] *)
Fixpoint lookup_attr (key : string) (attrs : list (string * string)) : option string :=
  match attrs with
  | [] => None
  | (k, v) :: rest => if String.eqb k key then Some v else lookup_attr key rest
  end.

Definition get_attr (key : string) (t : tag) : option string :=
  lookup_attr key (tattrs t).

(** The classes of an element: its [class] attribute cut at whitespace. *)
Definition classes_of (attrs : list (string * string)) : list string :=
  match lookup_attr "class" attrs with
  | Some v => Py.split v
  | None => []
  end.

Definition mem (s : string) (l : list string) : bool :=
  existsb (String.eqb s) l.

(** *** Selectors *)

Inductive attr_test : Type :=
| HasAttr (key : string)                 (* [key]          *)
| AttrPrefix (key : string) (v : string) (* [key^="v"]     *).

(** A compound selector such as [span.text-lg.text-green] or
    [span[title]]. *)
Record compound : Type := mkCompound {
  sel_name : string;
  sel_classes : list string;
  sel_attrs : list attr_test
}.

(** A selector: compounds joined by the descendant combinator, the
    subject last: [a.college_name h3] is [[a.college_name; h3]]. *)
Definition selector : Type := list compound.

Definition test_attr (attrs : list (string * string)) (t : attr_test) : bool :=
  match t with
  | HasAttr key =>
      match lookup_attr key attrs with Some _ => true | None => false end
  | AttrPrefix key v =>
      match lookup_attr key attrs with
      | Some w => String.prefix v w
      | None => false
      end
  end.

Definition matches_compound (c : compound) (h : head) : bool :=
  String.eqb (fst h) (sel_name c)
  && forallb (fun k => mem k (classes_of (snd h))) (sel_classes c)
  && forallb (test_attr (snd h)) (sel_attrs c).

(** [outer] are the compounds left of the subject, innermost first;
    each must be matched by a strictly higher ancestor than the one
    before it. *)
Fixpoint match_ancestors (outer : list compound) (anc : list head) : bool :=
  match outer with
  | [] => true
  | c :: cs =>
      (fix climb (a : list head) : bool :=
         match a with
         | [] => false
         | h :: a' =>
             if matches_compound c h then match_ancestors cs a' else climb a'
         end) anc
  end.

Definition matches (sel : selector) (t : tag) : bool :=
  match rev sel with
  | [] => false
  | subject :: outer =>
      matches_compound subject (head_of t) && match_ancestors outer (ancestors t)
  end.

(** *** Tree walks *)

(** The element [n] and everything below it, in document order. *)
Fixpoint subtree (anc : list head) (n : node) : list tag :=
  match n with
  | Text _ => []
  | Elem nm at_ ch =>
      mkTag anc nm at_ ch
      :: (fix walk (l : list node) : list tag :=
            match l with
            | [] => []
            | c :: l' => subtree ((nm, at_) :: anc) c ++ walk l'
            end) ch
  end.

(** [tag.descendants], elements only. *)
Definition descendants (t : tag) : list tag :=
  flat_map (subtree (head_of t :: ancestors t)) (tchildren t).

(** [tag.select(sel)] *)
Definition select (sel : selector) (t : tag) : list tag :=
  filter (matches sel) (descendants t).

(** [tag.select_one(sel)] *)
Definition select_one (sel : selector) (t : tag) : option tag :=
  hd_error (select sel t).

(** [tag.find(name)] *)
Definition find (name : string) (t : tag) : option tag :=
  hd_error (filter (fun d => String.eqb (tname d) name) (descendants t)).

(** [tag.find_all(name, recursive=False)]: direct children only. *)
Definition find_all_children (name : string) (t : tag) : list tag :=
  flat_map
    (fun n =>
       match n with
       | Text _ => []
       | Elem nm at_ ch =>
           if String.eqb nm name
           then [mkTag (head_of t :: ancestors t) nm at_ ch]
           else []
       end) (tchildren t).

(** The text nodes below a node, in document order. *)
Fixpoint strings_of (n : node) : list string :=
  match n with
  | Text s => [s]
  | Elem _ _ ch =>
      (fix walk (l : list node) : list string :=
         match l with
         | [] => []
         | c :: l' => strings_of c ++ walk l'
         end) ch
  end.

(** [tag.get_text(sep, strip=True)]: every text node stripped, the
    empty ones dropped, the rest joined by [sep]. *)
Definition get_text_strip (sep : string) (t : tag) : string :=
  Py.join sep
    (filter Py.truthy (map Py.strip (flat_map strings_of (tchildren t)))).

End Bs4.

(* ================================================================== *)
(** ** The record built for one listing row *)
(* ================================================================== *)

(** The dict every [parse_college_row] starts from and returns: the same
    eight keys, each holding a string. *)
Record college : Type := mkCollege {
  CD_Rank : string;
  College_Name : string;
  City : string;
  State : string;
  Course_Fees : string;
  Placement : string;
  User_Reviews : string;
  Ranking : string
}.

(** The initial value of [data] in [parse_college_row]. *)
Definition blank_row : college := mkCollege "" "" "" "" "" "" "" "".

(** [if len(parts) > i: data[key] = parts[i]], with [old] the value the
    key holds otherwise. *)
Definition item_or (i : nat) (parts : list string) (old : string) : string :=
  if Z.of_nat i <? Py.len parts then nth i parts old else old.

(** The selectors that occur in the sources. *)
Module Sel.
Import Bs4.
Definition el (name : string) (classes : list string) : compound :=
  mkCompound name classes [].

Definition listing_table : selector :=              (* div.listing-block-container table *)
  [el "div" ["listing-block-container"]; el "table" []].
Definition table_row : selector := [el "tr" ["table-row"]].
Definition college_name_h3 : selector :=            (* a.college_name h3 *)
  [el "a" ["college_name"]; el "h3" []].
Definition location : selector := [el "span" ["location"]].
Definition col_fees : selector := [el "td" ["col-fees"]].
Definition fee_amount : selector :=                 (* span.text-lg.text-green *)
  [el "span" ["text-lg"; "text-green"]].
Definition span_title : selector :=                 (* span[title] *)
  [mkCompound "span" [] [HasAttr "title"]].
Definition col_placement : selector := [el "td" ["col-placement"]].
Definition col_reviews : selector := [el "td" ["col-reviews"]].
Definition col_ranking : selector := [el "td" ["col-ranking"]].
Definition package_link : selector := [el "a" ["jsx-914129990"]].
Definition text_green : selector := [el "span" ["text-green"]].
Definition package_label : selector :=              (* span.text-sm.text-dark-gray *)
  [el "span" ["text-sm"; "text-dark-gray"]].
Definition placement_percentage : selector := [el "span" ["placement-percentage"]].
Definition placement_score : selector := [el "div" ["placement-score"]].
Definition lr_key : selector := [el "span" ["lr-key"]].
Definition lr_value : selector := [el "span" ["lr-value"]].
Definition tagline : selector :=                    (* span.tagline span.jsx-3698117056 *)
  [el "span" ["tagline"]; el "span" ["jsx-3698117056"]].
Definition rank_span : selector := [el "span" ["rank-span"]].
Definition rank_container : selector := [el "span" ["rank-container"]].
Definition college_link : selector :=               (* a[href^="/college/"] *)
  [mkCompound "a" [] [AttrPrefix "href" "/college/"]].
End Sel.

(** [find_listing_table] and [find_college_rows] read the same in
    ver3, ver4 and scraping.py. *)
Definition find_listing_table (soup : Bs4.tag) : option Bs4.tag :=
  match Bs4.select_one Sel.listing_table soup with
  | Some table => Some table
  | None => Bs4.find "table" soup
  end.

Definition find_college_rows (soup : Bs4.tag) : list Bs4.tag :=
  match find_listing_table soup with
  | Some table => Bs4.select Sel.table_row table
  | None => []
  end.

(** The web during one run: what [fetch_page] returns when
    [scrape_listing_page] is called with a page number (the request
    carries [page=page_num] when [page_num > 1] and no parameter
    otherwise); [None] stands for a non-200 status or a
    [RequestException].  A run asks for every page number at most once,
    so answers that change with time are covered. *)
Definition web : Type := Z -> option Bs4.tag.

(** [text if tag else ""] *)
Definition text_or_empty (sep : string) (t : option Bs4.tag) : string :=
  match t with
  | Some x => Bs4.get_text_strip sep x
  | None => ""
  end.

(** [if s: parts.append(s)] *)
Definition append_if (s : string) (parts : list string) : list string :=
  if Py.truthy s then parts ++ [s] else parts.

(* ================================================================== *)
(** ** The page loop of [run] in ver3 and scraping.py *)
(* ================================================================== *)

(** The three ways the loop of [run] ends: the [break] after the third
    empty page in a row, the [break] once [total_scraped >=
    expected_total], and the exhaustion of the [range]. *)
Inductive stop_reason : Type :=
| EMPTY_STREAK
| TARGET_REACHED
| PAGE_LIMIT.

(** One pass through the loop body: the page asked for, the count
    [scrape_listing_page] returned, and the two counters afterwards. *)
Record iteration : Type := mkIteration {
  it_page : Z;
  it_count : Z;
  it_empty : Z;
  it_total : Z
}.

(** The variables [run] works on: [self.colleges_data], the locals
    [total_scraped] and [empty_pages], and (ghost) the passes made. *)
Record progress : Type := mkProgress {
  colleges_data : list college;
  total_scraped : Z;
  empty_pages : Z;
  iterations : list iteration
}.

Definition counts (p : progress) : list Z := map it_count (iterations p).
Definition pages_of (p : progress) : list Z := map it_page (iterations p).

Section PageLoop.

(** [self.scrape_listing_page], acting on [self.colleges_data]. *)
Variable scrape_listing_page : Z -> list college -> list college * Z.
Variable expected_total : Z.

(** [for page in pages: ...] with its two [break]s (ver3 lines
    182-196, scraping.py lines 274-296). *)
Fixpoint for_pages (pages : list Z) (s : progress) : stop_reason * progress :=
  match pages with
  | [] => (PAGE_LIMIT, s)
  | page :: rest =>
      let '(data, count) := scrape_listing_page page (colleges_data s) in
      let after_page (empty total : Z) :=
        let s' := mkProgress data total empty
                    (iterations s ++ [mkIteration page count empty total]) in
        if total >=? expected_total then (TARGET_REACHED, s')
        else for_pages rest s' in
      if count =? 0 then
        let empty := empty_pages s + 1 in
        if empty >=? 3 then
          (EMPTY_STREAK,
           mkProgress data (total_scraped s) empty
             (iterations s ++ [mkIteration page count empty (total_scraped s)]))
        else after_page empty (total_scraped s)
      else after_page 0 (total_scraped s + count)
  end.

End PageLoop.

(** The locals of [run] at its start. *)
Definition start_of_run (data : list college) : progress :=
  mkProgress data 0 0 [].

(* ================================================================== *)
(** ** Quantities in which the properties of the loop are stated *)
(* ================================================================== *)

(** [empty_pages] after the counts [cs], starting from [e]. *)
Definition streak_after (e : Z) (cs : list Z) : Z :=
  fold_left (fun e c => if c =? 0 then e + 1 else 0) cs e.

(** [total_scraped] after the counts [cs]. *)
Definition sum (cs : list Z) : Z := fold_left Z.add cs 0.

(** The last three pages each gave a count of zero. *)
Definition three_empty_at_end (cs : list Z) : Prop :=
  exists pre, cs = pre ++ [0; 0; 0].

(** [empty_pages] before the pass that follows the passes [its]. *)
Definition empty_before (its : list iteration) : Z :=
  match rev its with
  | [] => 0
  | it :: _ => it_empty it
  end.

Section PageLoopSteps.

Variable scrape : Z -> list college -> list college * Z.
Variable expected : Z.
Variable data0 : list college.
Variable all_pages : list Z.

(** The variables after one more pass, for page [page]. *)
Definition step (page : Z) (s : progress) : progress :=
  let count := snd (scrape page (colleges_data s)) in
  let empty := if count =? 0 then empty_pages s + 1 else 0 in
  let total := if count =? 0 then total_scraped s else total_scraped s + count in
  mkProgress (fst (scrape page (colleges_data s))) total empty
    (iterations s ++ [mkIteration page count empty total]).

(** Which [break] that pass takes, if any. *)
Definition verdict (page : Z) (s : progress) : option stop_reason :=
  let count := snd (scrape page (colleges_data s)) in
  if (count =? 0) && (empty_pages (step page s) >=? 3) then Some EMPTY_STREAK
  else if total_scraped (step page s) >=? expected then Some TARGET_REACHED
  else None.

(** What holds of the variables after any number of passes. *)
Record good (s : progress) : Prop := mkGood {
  good_empty : empty_pages s = streak_after 0 (counts s);
  good_total : total_scraped s = sum (counts s);
  good_last : empty_pages s = empty_before (iterations s);
  good_chain :
    forall before it after, iterations s = before ++ it :: after ->
      it_empty it = (if it_count it =? 0 then empty_before before + 1 else 0) /\
      it_total it = sum (map it_count (before ++ [it])) /\
      (exists d, it_count it = snd (scrape (it_page it) d));
  good_data :
    exists added, colleges_data s = data0 ++ added /\ Py.len added = sum (counts s)
}.

(** What holds in addition while the loop goes on. *)
Record running (rest : list Z) (s : progress) : Prop := mkRunning {
  run_good : good s;
  run_pages : all_pages = pages_of s ++ rest;
  run_streak : forall pre post, counts s = pre ++ post -> streak_after 0 pre < 3;
  run_total : forall pre post, counts s = pre ++ post -> pre <> [] -> sum pre < expected
}.

(** What holds when the loop is left with reason [r]. *)
Record finished (r : stop_reason) (s : progress) : Prop := mkFinished {
  fin_good : good s;
  fin_pages : exists rest, all_pages = pages_of s ++ rest /\ (r = PAGE_LIMIT -> rest = []);
  fin_streak : forall pre post,
      counts s = pre ++ post -> post <> [] -> streak_after 0 pre < 3;
  fin_total : forall pre post,
      counts s = pre ++ post -> pre <> [] -> post <> [] -> sum pre < expected;
  fin_empty : r = EMPTY_STREAK <-> 3 <= streak_after 0 (counts s);
  fin_target : r = TARGET_REACHED <-> counts s <> [] /\ expected <= sum (counts s)
}.

End PageLoopSteps.

(* ================================================================== *)
(** ** collegedunia_scraper_ver3_28dec.py *)
(* ================================================================== *)

Module Ver3.
Import Bs4.

(** The body of [if fees_td:] (lines 118-126).  [label['title']] is a
    subscript, which raises [KeyError] when the attribute is absent:
    [None] stands for that exception. *)
Definition fees_text (fees_td : tag) : option string :=
  let amount := select_one Sel.fee_amount fees_td in
  let label := select_one Sel.span_title fees_td in
  let parts :=
    match amount with
    | Some a => [get_text_strip "" a]
    | None => []
    end in
  match label with
  | None => Some (Py.join " " parts)
  | Some l =>
      match get_attr "title" l with
      | Some title => Some (Py.join " " (parts ++ [("(" ++ title ++ ")")%string]))
      | None => None
      end
  end.

(** [parse_college_row] (lines 86-140); [None] is an uncaught
    exception. *)
Definition parse_college_row (tr : tag) : option college :=
  let data := blank_row in
  let tds := find_all_children "td" tr in
  if Py.len tds <? 2 then Some data
  else
    match tds with
    | td0 :: info_td :: _ =>
        let cd_rank := get_text_strip "" td0 in
        let name :=
          match select_one Sel.college_name_h3 info_td with
          | Some name_tag => Py.join " " (Py.split (get_text_strip " " name_tag))
          | None => College_Name data
          end in
        let '(city, state) :=
          match select_one Sel.location info_td with
          | Some loc_span =>
              let parts := map Py.strip (Py.split_comma (get_text_strip "" loc_span)) in
              (item_or 0 parts (City data), item_or 1 parts (State data))
          | None => (City data, State data)
          end in
        let fees :=
          match select_one Sel.col_fees tr with
          | Some fees_td => fees_text fees_td
          | None => Some (Course_Fees data)
          end in
        let placement := text_or_empty " " (select_one Sel.col_placement tr) in
        let reviews := text_or_empty " " (select_one Sel.col_reviews tr) in
        let ranking := text_or_empty " " (select_one Sel.col_ranking tr) in
        match fees with
        | Some f => Some (mkCollege cd_rank name city state f placement reviews ranking)
        | None => None
        end
    | _ => Some data
    end.

(** The dict a call of [parse_college_row] evaluates to.  The fallback
    is never taken: see [parse_college_row_returns]. *)
Definition parsed (tr : tag) : college :=
  match parse_college_row tr with
  | Some c => c
  | None => blank_row
  end.

(** [scrape_listing_page] (lines 154-171): the new [colleges_data] and
    the returned count. *)
Definition keep_named (acc : list college * Z) (c : college) : list college * Z :=
  if Py.truthy (College_Name c) then (fst acc ++ [c], snd acc + 1) else acc.

Definition scrape_listing_page (w : web) (page_num : Z)
    (colleges_data : list college) : list college * Z :=
  match w page_num with
  | None => (colleges_data, 0)
  | Some soup =>
      let rows := find_college_rows soup in
      fold_left keep_named (map parsed rows) (colleges_data, 0)
  end.

(** [CollegeDuniaScraper.run] (lines 173-199), called on a scraper
    whose [colleges_data] is [data]. *)
Definition run (w : web) (start_page max_pages expected_total : Z)
    (data : list college) : stop_reason * progress :=
  for_pages (scrape_listing_page w) expected_total
    (Py.range start_page (start_page + max_pages)) (start_of_run data).

End Ver3.

(* ================================================================== *)
(** ** scraping.py *)
(* ================================================================== *)

Module Scraping.
Import Bs4.

(** [MAX_PAGES] *)
Definition MAX_PAGES : Z := 3000.

(** [label_span.get("title", "").strip() if label_span else ""] *)
Definition title_or_empty (label_span : option tag) : string :=
  match label_span with
  | Some l =>
      Py.strip (match get_attr "title" l with Some v => v | None => "" end)
  | None => ""
  end.

(** The body of [for block in blocks:] over [placement_parts]
    (lines 167-173). *)
Definition add_package (placement_parts : list string) (block : tag) : list string :=
  let value_text := text_or_empty " " (select_one Sel.text_green block) in
  let label_text := text_or_empty " " (select_one Sel.package_label block) in
  if Py.truthy value_text && Py.truthy label_text
  then placement_parts ++ [(value_text ++ " " ++ label_text)%string]
  else placement_parts.

(** Lines 163-184. *)
Definition placement_text (tr : tag) : string :=
  let placement_parts :=
    match select_one Sel.col_placement tr with
    | Some placement_td =>
        let parts := fold_left add_package (select Sel.package_link placement_td) [] in
        let parts :=
          match select_one Sel.placement_percentage placement_td with
          | Some perc_span => parts ++ [get_text_strip " " perc_span]
          | None => parts
          end in
        match select_one Sel.placement_score placement_td with
        | Some score_container => parts ++ [get_text_strip " " score_container]
        | None => parts
        end
    | None => []
    end in
  Py.strip (Py.join " " placement_parts).

(** Lines 187-202. *)
Definition reviews_text (reviews_td : tag) : string :=
  let rating_text := text_or_empty " " (select_one Sel.lr_key reviews_td) in
  let count_text := text_or_empty " " (select_one Sel.lr_value reviews_td) in
  let tagline_text := text_or_empty " " (select_one Sel.tagline reviews_td) in
  let pieces := append_if tagline_text (append_if count_text (append_if rating_text [])) in
  Py.strip (Py.join " " pieces).

(** Lines 205-216; [old] is the value [data["Ranking"]] holds. *)
Definition ranking_text (ranking_td : tag) (old : string) : string :=
  let rank_text := text_or_empty " " (select_one Sel.rank_span ranking_td) in
  let container_text := text_or_empty " " (select_one Sel.rank_container ranking_td) in
  if Py.truthy container_text then Py.join " " (Py.split container_text)
  else if Py.truthy rank_text then Py.join " " (Py.split rank_text)
  else old.

(** Lines 148-160. *)
Definition fees_text (fees_td : tag) : string :=
  let amount_text := text_or_empty " " (select_one Sel.fee_amount fees_td) in
  let label_text := title_or_empty (select_one Sel.span_title fees_td) in
  let parts := append_if amount_text [] in
  let parts :=
    if Py.truthy label_text then parts ++ [("(" ++ label_text ++ ")")%string]
    else parts in
  Py.strip (Py.join " " parts).

(** [parse_college_row] (lines 98-218). *)
Definition parse_college_row (tr : tag) : college :=
  let data := blank_row in
  let tds := find_all_children "td" tr in
  if Py.len tds <? 2 then data
  else
    match tds with
    | td0 :: info_td :: _ =>
        let cd_rank := get_text_strip "" td0 in
        let name :=
          match select_one Sel.college_name_h3 info_td with
          | Some name_tag => Py.join " " (Py.split (get_text_strip " " name_tag))
          | None => College_Name data
          end in
        let '(city, state) :=
          match select_one Sel.location info_td with
          | Some loc_span =>
              let loc_text := get_text_strip " " loc_span in
              let parts := map Py.strip (Py.split_comma loc_text) in
              (if Py.len parts >=? 1 then nth 0 parts (City data) else City data,
               if Py.len parts >=? 2 then nth 1 parts (State data) else State data)
          | None => (City data, State data)
          end in
        let fees :=
          match select_one Sel.col_fees tr with
          | Some fees_td => fees_text fees_td
          | None => Course_Fees data
          end in
        let placement := placement_text tr in
        let reviews :=
          match select_one Sel.col_reviews tr with
          | Some reviews_td => reviews_text reviews_td
          | None => User_Reviews data
          end in
        let ranking :=
          match select_one Sel.col_ranking tr with
          | Some ranking_td => ranking_text ranking_td (Ranking data)
          | None => Ranking data
          end in
        mkCollege cd_rank name city state fees placement reviews ranking
    | _ => data
    end.

(** The body of [for tr in rows:] (lines 255-259). *)
Definition keep_named (acc : list college * Z) (c : college) : list college * Z :=
  if Py.truthy (College_Name c) then (fst acc ++ [c], snd acc + 1) else acc.

(** [scrape_listing_page] (lines 240-262). *)
Definition scrape_listing_page (w : web) (page_num : Z)
    (colleges_data : list college) : list college * Z :=
  match w page_num with
  | None => (colleges_data, 0)
  | Some soup =>
      let rows := find_college_rows soup in
      match rows with
      | [] => (colleges_data, 0)
      | _ => fold_left keep_named (map parse_college_row rows) (colleges_data, 0)
      end
  end.

(** [run] (lines 264-310), called on a scraper whose [colleges_data]
    is [data]. *)
Definition run (w : web) (max_pages expected_total : Z)
    (data : list college) : stop_reason * progress :=
  for_pages (scrape_listing_page w) expected_total
    (Py.range 1 (max_pages + 1)) (start_of_run data).

End Scraping.

(* ================================================================== *)
(** ** collegedunia_scraper_ver4_28dec.py *)
(* ================================================================== *)

(** Calls a scraper makes on its way, in order (ghost): [fetch_page]
    for a page number, and the parsing of the page that came back. *)
Inductive event : Type :=
| Fetch (page : Z)
| Parse (page : Z).

Definition fetched (log : list event) : list Z :=
  flat_map (fun e => match e with Fetch p => [p] | Parse _ => [] end) log.

Definition parsed_pages (log : list event) : list Z :=
  flat_map (fun e => match e with Parse p => [p] | Fetch _ => [] end) log.

Module Ver4.
Import Bs4.

(** What is stored under [EXCEL_FILE]: nothing, a workbook holding the
    rows of a data frame, or the remains of a write that did not
    finish.  Reading a workbook back is taken to return the rows that
    were written. *)
Inductive file : Type :=
| Missing
| Workbook (rows : list college)
| Torn.

(** The scraper object and the file it owns. *)
Record scraper : Type := mkScraper {
  colleges_data : list college;
  disk : file;
  log : list event
}.

(** [parse_college_row] (lines 89-143) has the statements of ver3's. *)
Definition parse_college_row : tag -> option college := Ver3.parse_college_row.
Definition parsed : tag -> college := Ver3.parsed.

(** [__init__] (lines 152-159): [os.path.exists] and [pd.read_excel];
    [None] is the exception [read_excel] raises on a file that is not
    a workbook. *)
Definition init (d : file) : option scraper :=
  match d with
  | Missing => Some (mkScraper [] d [])
  | Workbook rows => Some (mkScraper rows d [])
  | Torn => None
  end.

(** [DataFrame.to_excel(EXCEL_FILE)] opens [EXCEL_FILE] itself for
    writing and then writes the workbook into it. *)
Definition to_excel_open (d : file) : file := Torn.
Definition to_excel_close (rows : list college) (d : file) : file := Workbook rows.
Definition to_excel (rows : list college) (d : file) : file :=
  to_excel_close rows (to_excel_open d).

(** [any(c["College Name"] == name for c in self.colleges_data)] *)
Definition name_present (name : string) (data : list college) : bool :=
  existsb (fun c => String.eqb (College_Name c) name) data.

(** The body of [for tr in rows:] (lines 173-178) on
    [(new_rows, count)]. *)
Definition keep_new (data : list college) (acc : list college * Z)
    (c : college) : list college * Z :=
  if Py.truthy (College_Name c) then
    if negb (name_present (College_Name c) data)
    then (fst acc ++ [c], snd acc + 1)
    else acc
  else acc.

(** Lines 170-185, given the dicts parsed from the rows of the page:
    the new [colleges_data], the file, and the returned count. *)
Definition merge (candidates : list college) (data : list college) (d : file)
    : list college * file * Z :=
  let '(new_rows, count) := fold_left (keep_new data) candidates ([], 0) in
  match new_rows with
  | [] => (data, d, count)
  | _ => let data' := data ++ new_rows in (data', to_excel data' d, count)
  end.

(** [scrape_listing_page] (lines 161-185). *)
Definition scrape_listing_page (w : web) (page_num : Z) (s : scraper)
    : scraper * Z :=
  match w page_num with
  | None => (mkScraper (colleges_data s) (disk s) (log s ++ [Fetch page_num]), 0)
  | Some soup =>
      let rows := find_college_rows soup in
      let '(data, d, count) :=
        merge (map parsed rows) (colleges_data s) (disk s) in
      (mkScraper data d (log s ++ [Fetch page_num; Parse page_num]), count)
  end.

(** The states of the file one call of [scrape_listing_page] passes
    through, from entry to return: a process that is killed during the
    call leaves one of them behind.  [self.colleges_data.extend] comes
    first and does not touch the file; then [to_excel] opens and
    writes. *)
Definition file_states (w : web) (page_num : Z) (s : scraper) : list file :=
  match w page_num with
  | None => [disk s]
  | Some soup =>
      let rows := find_college_rows soup in
      let '(new_rows, _) :=
        fold_left (keep_new (colleges_data s)) (map parsed rows) ([], 0) in
      match new_rows with
      | [] => [disk s]
      | _ =>
          [disk s;                                       (* after extend  *)
           to_excel_open (disk s);                       (* write begun   *)
           to_excel_close (colleges_data s ++ new_rows)
             (to_excel_open (disk s))]                   (* write done    *)
      end
  end.

(** The locals of [run]. *)
Record loop : Type := mkLoop {
  total_scraped : Z;
  empty_pages : Z;
  page : Z
}.

(** One pass through [while True:] (lines 192-205); the flag tells
    whether the pass ended in [break]. *)
Definition pass (w : web) (s : scraper) (l : loop) : bool * scraper * loop :=
  let '(s', count) := scrape_listing_page w (page l) s in
  if count =? 0 then
    let empty := empty_pages l + 1 in
    if empty >=? 3 then (true, s', mkLoop (total_scraped l) empty (page l))
    else (false, s', mkLoop (total_scraped l) empty (page l + 1))
  else (false, s', mkLoop (total_scraped l + count) 0 (page l + 1)).

(** At most [fuel] passes of the loop; the flag tells whether the loop
    was left by then. *)
Fixpoint run_loop (fuel : nat) (w : web) (s : scraper) (l : loop)
    : bool * scraper * loop :=
  match fuel with
  | O => (false, s, l)
  | S fuel' =>
      let '(stop, s', l') := pass w s l in
      if stop then (true, s', l') else run_loop fuel' w s' l'
  end.

(** [run] (lines 187-208). *)
Definition run (fuel : nat) (w : web) (start_page : Z) (s : scraper)
    : bool * scraper * loop :=
  run_loop fuel w s (mkLoop 0 0 start_page).

End Ver4.

(* ================================================================== *)
(** ** collegedunia_scraper_stage1.py *)
(* ================================================================== *)

Module Stage1.
Import Bs4.

Definition BASE_URL : string := "https://collegedunia.com".
Definition MAX_PAGES_PER_STREAM : Z := 1500.

Definition STREAM_URLS : list (string * string) :=
  [("Architecture", "https://collegedunia.com/architecture/architectural-planning-colleges");
   ("Engineering", "https://collegedunia.com/engineering/engineering-colleges");
   ("Management", "https://collegedunia.com/management/management-colleges");
   ("Science", "https://collegedunia.com/science/science-colleges");
   ("Commerce", "https://collegedunia.com/commerce/commerce-colleges");
   ("Arts", "https://collegedunia.com/arts/arts-colleges")].

(** One dict appended to [collected]. *)
Record url_row : Type := mkUrlRow {
  college_profile_url : string;
  stream : string;
  source_listing_url : string
}.

(** The locals of the page loop of one stream, with the ghost log. *)
Record state : Type := mkState {
  collected : list url_row;
  empty_pages : Z;
  log : list event
}.

Section WithUrllib.

(** [urllib.parse.urljoin] *)
Variable urljoin : string -> string -> string.

(** [fetch_page] during the run: listing URL and page number to
    answer. *)
Variable fetch_page : string -> Z -> option tag.

(** [extract_profile_urls] (lines 100-107).  The set is listed
    without repetition; Python leaves the order open. *)
Definition add_url (urls : list string) (a : tag) : list string :=
  match get_attr "href" a with
  | Some href =>
      if Py.truthy href then
        let clean := hd "" (Py.split_at (Ascii.eqb "?"%char) href) in
        let u := urljoin BASE_URL clean in
        if mem u urls then urls else urls ++ [u]
      else urls
  | None => urls
  end.

Definition extract_profile_urls (soup : tag) : list string :=
  fold_left add_url (select Sel.college_link soup) [].

(** [for page in range(...)] of one stream (lines 124-149). *)
Fixpoint stream_pages (stream_name base_url : string) (pages : list Z)
    (s : state) : state :=
  match pages with
  | [] => s
  | page :: rest =>
      match fetch_page base_url page with
      | None =>
          let empty := empty_pages s + 1 in
          let s' := mkState (collected s) empty (log s ++ [Fetch page]) in
          if empty >=? 3 then s' else stream_pages stream_name base_url rest s'
      | Some soup =>
          let urls := extract_profile_urls soup in
          let lg := log s ++ [Fetch page; Parse page] in
          match urls with
          | [] =>
              let empty := empty_pages s + 1 in
              let s' := mkState (collected s) empty lg in
              if empty >=? 3 then s' else stream_pages stream_name base_url rest s'
          | _ =>
              let rows := map (fun u => mkUrlRow u stream_name base_url) urls in
              stream_pages stream_name base_url rest
                (mkState (collected s ++ rows) 0 lg)
          end
      end
  end.

(** The loop of one stream, from [empty_pages = 0]. *)
Definition collect_stream (stream_name base_url : string)
    (collected0 : list url_row) : state :=
  stream_pages stream_name base_url
    (Py.range 1 (MAX_PAGES_PER_STREAM + 1)) (mkState collected0 0 []).

(** [df.drop_duplicates(subset="college_profile_url")]: the first
    row of each URL stays. *)
Definition drop_duplicates (rows : list url_row) : list url_row :=
  fold_left
    (fun kept r =>
       if existsb (fun k => String.eqb (college_profile_url k) (college_profile_url r)) kept
       then kept else kept ++ [r])
    rows [].

(** [collect_college_urls] (lines 116-151): the data frame written
    to [college_urls.csv] and returned. *)
Definition collect_college_urls : list url_row :=
  drop_duplicates
    (fold_left
       (fun acc su => collected (collect_stream (fst su) (snd su) acc))
       STREAM_URLS []).

End WithUrllib.

End Stage1.

(* ================================================================== *)
(** ** Sample pages *)
(* ================================================================== *)

Module Sample.
Import Bs4.

Definition cls (c : string) : list (string * string) := [("class", c)].

(** A listing row with rank, name and location cells. *)
Definition row (rank name loc : string) : node :=
  Elem "tr" (cls "jsx-1 table-row")
    [Elem "td" [] [Text rank];
     Elem "td" []
       [Elem "a" (cls "college_name") [Elem "h3" [] [Text name]];
        Elem "span" (cls "location") [Text loc]];
     Elem "td" (cls "col-fees")
       [Elem "span" (cls "text-lg text-green") [Text " 2,00,000 "];
        Elem "span" [("title", "BE/B.Tech - first year fees")] [Text "1st yr"]]].

(** A page whose listing table holds the given rows. *)
Definition listing (rows : list node) : tag :=
  document
    [Elem "html" []
       [Elem "body" []
          [Elem "div" (cls "listing-block-container")
             [Elem "table" [] [Elem "tbody" [] rows]]]]].

(** A page without any table. *)
Definition no_table : tag :=
  document [Elem "html" [] [Elem "body" [] [Elem "p" [] [Text "Not found"]]]].

(** A row with a single cell. *)
Definition short_row : tag :=
  mkTag [] "tr" (cls "table-row") [Elem "td" [] [Text "#9"]].

Definition A : node := row "#1" "IIT Madras" "Chennai, Tamil Nadu".
Definition B : node := row "#2" "IIT Delhi" "New Delhi, Delhi NCR".
Definition C : node := row "#3" "IIT Bombay" "Mumbai, Maharashtra".
Definition D : node := row "#4" "IIT Kanpur" "Kanpur, Uttar Pradesh".
Definition E : node := row "#5" "IIT Kharagpur" "Kharagpur, West Bengal".
Definition F : node := row "#6" "IIT Roorkee" "Roorkee, Uttarakhand".
Definition unnamed : node := row "#7" "  " "Nowhere".

End Sample.

(* ================================================================== *)
(** ** Notions in which the properties are stated *)
(* ================================================================== *)

(** A web site given by the answers to pages 1, 2, ...; every other
    request fails. *)
Definition site (answers : list (option Bs4.tag)) : web :=
  fun page_num =>
    if page_num <? 1 then None else nth (Z.to_nat (page_num - 1)) answers None.

(** The test [if college["College Name"]:]. *)
Definition named (c : college) : bool := Py.truthy (College_Name c).

(** The candidate entities of a page: the dicts parsed from the rows of
    the fetched page, none for a failed fetch. *)
Definition page_candidates (parse : Bs4.tag -> college) (w : web) (page_num : Z)
    : list college :=
  match w page_num with
  | Some soup => map parse (find_college_rows soup)
  | None => []
  end.

(** The empty-streak rule, on the outcome of a run whose passes call
    [scrape]: the reason is [EMPTY_STREAK] exactly when the last three
    passes each counted zero; no three passes in a row counted zero
    earlier; and each pass sets the counter to zero on a non-zero count
    and raises it by one on a zero count. *)
Definition empty_streak_law (scrape : Z -> list college -> list college * Z)
    (r : stop_reason * progress) : Prop :=
  (fst r = EMPTY_STREAK <-> three_empty_at_end (counts (snd r))) /\
  (forall pre post, counts (snd r) = pre ++ post -> post <> [] ->
     ~ three_empty_at_end pre) /\
  (forall before it after, iterations (snd r) = before ++ it :: after ->
     (exists d, it_count it = snd (scrape (it_page it) d)) /\
     (it_count it = 0 -> it_empty it = empty_before before + 1) /\
     (it_count it <> 0 -> it_empty it = 0)).

(** When a page counts zero: after a failed fetch, and after a fetch
    whose candidates all lack a name; a zero count means that nothing
    was added to [colleges_data]. *)
Definition zero_count_law (parse : Bs4.tag -> college) (w : web)
    (scrape : Z -> list college -> list college * Z) : Prop :=
  forall p d,
    (w p = None -> scrape p d = (d, 0)) /\
    (forallb (fun c => negb (named c)) (page_candidates parse w p) = true ->
     scrape p d = (d, 0)) /\
    (snd (scrape p d) = 0 <-> fst (scrape p d) = d).

(** The target rule, on the outcome of a run over [all_pages] that
    started from [data0]: the reason is [TARGET_REACHED] exactly when,
    after the last pass made, the total is at least the target; after no
    earlier pass it was; and [colleges_data] has grown by the whole
    total, the last page included. *)
Definition target_law (expected : Z) (data0 : list college) (all_pages : list Z)
    (r : stop_reason * progress) : Prop :=
  (fst r = TARGET_REACHED <->
   counts (snd r) <> [] /\ expected <= sum (counts (snd r))) /\
  (forall pre post, counts (snd r) = pre ++ post -> pre <> [] -> post <> [] ->
     sum pre < expected) /\
  total_scraped (snd r) = sum (counts (snd r)) /\
  (exists rest, all_pages = pages_of (snd r) ++ rest) /\
  (exists added, colleges_data (snd r) = data0 ++ added /\
                 Py.len added = total_scraped (snd r)).

(** The test of lines 175-176: the candidate has a name, and no dict of
    [data] has the same. *)
Definition is_new (data : list college) (c : college) : bool :=
  named c && negb (Ver4.name_present (College_Name c) data).

(** What a scraper started on the file would load: [None] when
    [__init__] raises. *)
Definition durable (d : Ver4.file) : option (list college) :=
  match d with
  | Ver4.Missing => Some []
  | Ver4.Workbook rows => Some rows
  | Ver4.Torn => None
  end.

(** The file holds exactly what the scraper holds. *)
Definition in_step (s : Ver4.scraper) : Prop :=
  durable (Ver4.disk s) = Some (Ver4.colleges_data s).

(** The lists [colleges_data] can become, from the empty list of
    [__init__], in ver3 and scraping.py. *)
Inductive reachable (scrape : web -> Z -> list college -> list college * Z)
    : list college -> Prop :=
| reach_start : reachable scrape []
| reach_page (w : web) (p : Z) (d : list college) :
    reachable scrape d -> reachable scrape (fst (scrape w p d)).

(** The scrapers of ver4 that can come about, from a first start without
    a file: by scraping a page, and by starting again on what a call of
    [scrape_listing_page] left on the disk, finished or killed. *)
Inductive reachable4 : Ver4.scraper -> Prop :=
| reach4_first : reachable4 (Ver4.mkScraper [] Ver4.Missing [])
| reach4_page (w : web) (p : Z) (s : Ver4.scraper) :
    reachable4 s -> reachable4 (fst (Ver4.scrape_listing_page w p s))
| reach4_restart (w : web) (p : Z) (s s' : Ver4.scraper) (d : Ver4.file) :
    reachable4 s -> In d (Ver4.file_states w p s) -> Ver4.init d = Some s' ->
    reachable4 s'.

(** The order of the requests, on the calls [evs] a loop made from page
    [start] on against the web [w]: the pages fetched are [start],
    [start + 1], ... without gap or repetition, hence strictly
    increasing, and a page was parsed only if its fetch gave a page. *)
Definition fetch_order_law (w : Z -> option Bs4.tag) (start : Z) (evs : list event)
    : Prop :=
  (exists n : nat, fetched evs = Py.range start (start + Z.of_nat n)) /\
  StronglySorted Z.lt (fetched evs) /\
  (forall q, In (Parse q) evs -> w q <> None).

(** What one call of ver4's [scrape_listing_page] logs. *)
Definition calls_of (w : web) (p : Z) : list event :=
  match w p with
  | None => [Fetch p]
  | Some _ => [Fetch p; Parse p]
  end.

(* ================================================================== *)
(** ** scarpingtest.py *)
(* ================================================================== *)

Module ScrapingTest.
Import Bs4.

(** Lines 189-195: only [span.rank-container] is read. *)
Definition ranking_text (ranking_td : tag) (old : string) : string :=
  let container_text := text_or_empty " " (select_one Sel.rank_container ranking_td) in
  if Py.truthy container_text then Py.join " " (Py.split container_text) else old.

(** [parse_college_row] (lines 97-197).  The statements for the fees,
    the placement and the reviews are those of scraping.py. *)
Definition parse_college_row (tr : tag) : college :=
  let data := blank_row in
  let tds := find_all_children "td" tr in
  if Py.len tds <? 2 then data
  else
    match tds with
    | td0 :: info_td :: _ =>
        let cd_rank := get_text_strip "" td0 in
        let name :=
          match select_one Sel.college_name_h3 info_td with
          | Some name_tag => Py.join " " (Py.split (get_text_strip " " name_tag))
          | None => College_Name data
          end in
        let '(city, state) :=
          match select_one Sel.location info_td with
          | Some loc_span =>
              let loc_text := get_text_strip " " loc_span in
              let parts := map Py.strip (Py.split_comma loc_text) in
              (if Py.len parts >=? 1 then nth 0 parts (City data) else City data,
               if Py.len parts >=? 2 then nth 1 parts (State data) else State data)
          | None => (City data, State data)
          end in
        let fees :=
          match select_one Sel.col_fees tr with
          | Some fees_td => Scraping.fees_text fees_td
          | None => Course_Fees data
          end in
        let placement := Scraping.placement_text tr in
        let reviews :=
          match select_one Sel.col_reviews tr with
          | Some reviews_td => Scraping.reviews_text reviews_td
          | None => User_Reviews data
          end in
        let ranking :=
          match select_one Sel.col_ranking tr with
          | Some ranking_td => ranking_text ranking_td (Ranking data)
          | None => Ranking data
          end in
        mkCollege cd_rank name city state fees placement reviews ranking
    | _ => data
    end.

(** The body of [for tr in rows:] (lines 231-235). *)
Definition keep_named (acc : list college * Z) (c : college) : list college * Z :=
  if Py.truthy (College_Name c) then (fst acc ++ [c], snd acc + 1) else acc.

(** [scrape_listing_page] (lines 216-238). *)
Definition scrape_listing_page (w : web) (page_num : Z)
    (colleges_data : list college) : list college * Z :=
  match w page_num with
  | None => (colleges_data, 0)
  | Some soup =>
      let rows := find_college_rows soup in
      match rows with
      | [] => (colleges_data, 0)
      | _ => fold_left keep_named (map parse_college_row rows) (colleges_data, 0)
      end
  end.

(** The body of the loop of [run] (lines 251-254) on
    [(self.colleges_data, total_scraped)]. *)
Definition run_page (w : web) (acc : list college * Z) (page_num : Z)
    : list college * Z :=
  let '(data, count) := scrape_listing_page w page_num (fst acc) in
  (data, snd acc + count).

(** [run] (lines 240-266): [self.colleges_data] at the end, and the
    total that is logged.  [expected_total] is a parameter the body does
    not read. *)
Definition run (w : web) (max_pages expected_total : Z) (data : list college)
    : list college * Z :=
  fold_left (run_page w) (Py.range 1 (max_pages + 1)) (data, 0).

End ScrapingTest.

(* ================================================================== *)
(** ** Notions for the further properties *)
(* ================================================================== *)





(** The name and the rank every version of [parse_college_row] computes
    from a row (the first statements of the function are the same in
    ver3, ver4, scraping.py and scarpingtest.py). *)
Definition row_name (tr : Bs4.tag) : string :=
  match Bs4.find_all_children "td" tr with
  | _ :: info_td :: _ =>
      match Bs4.select_one Sel.college_name_h3 info_td with
      | Some name_tag => Py.join " " (Py.split (Bs4.get_text_strip " " name_tag))
      | None => ""
      end
  | _ => ""
  end.

Definition row_rank (tr : Bs4.tag) : string :=
  match Bs4.find_all_children "td" tr with
  | td0 :: _ :: _ => Bs4.get_text_strip "" td0
  | _ => ""
  end.

(** The names of the dicts in a list. *)
Definition names (l : list college) : list string := map College_Name l.

(* ================================================================== *)
(** ** merged_sheet.py *)
(* ================================================================== *)

Module MergedSheet.

(** [os.path.basename] *)
Definition basename (path : string) : string :=
  last (Py.split_at (Ascii.eqb "/"%char) path) "".

Section WithSheets.

(** A row of a data frame, with the comparison [drop_duplicates] makes
    between two rows. *)
Variable row : Type.
Variable row_eqb : row -> row -> bool.

(** [pd.read_excel]: the rows of the workbook at a path. *)
Variable read_excel : string -> list row.

(** Lines 8-11: what [glob.glob] found, without the lock files. *)
Definition excel_files (found : list string) : list string :=
  filter (fun f => negb (String.prefix "~$" (basename f))) found.

(** Lines 18-21: the frame of one file, with its [Source_File] column. *)
Definition with_source (file : string) : list (row * string) :=
  map (fun r => (r, basename file)) (read_excel file).

Definition same_row (a b : row * string) : bool :=
  row_eqb (fst a) (fst b) && String.eqb (snd a) (snd b).

(** [drop_duplicates]: the first of equal rows stays. *)
Definition drop_duplicates (rows : list (row * string)) : list (row * string) :=
  fold_left
    (fun kept r => if existsb (same_row r) kept then kept else kept ++ [r])
    rows [].

(** Lines 15-25: the frame written to [ALL_COLLEGEDUNIA_DATA.xlsx];
    [None] is the [ValueError] of [pd.concat] on an empty list. *)
Definition merged (found : list string) : option (list (row * string)) :=
  match excel_files found with
  | [] => None
  | files => Some (drop_duplicates (flat_map with_source files))
  end.

End WithSheets.

End MergedSheet.

(* ================================================================== *)
(** ** Properties of the row parser *)
(* ================================================================== *)

Section ParserFacts.
Import Bs4.

Lemma hd_error_filter_holds {A} (f : A -> bool) (l : list A) (x : A) :
  hd_error (filter f l) = Some x -> f x = true.
Proof.
  induction l as [|a l IH]; simpl; [discriminate|].
  destruct (f a) eqn:Fa; simpl; [intros [= <-]; exact Fa | exact IH].
Qed.

(** What [select_one] returns satisfies the subject of the selector. *)
Lemma select_one_matches (sel : selector) (t x : tag) :
  select_one sel t = Some x -> matches sel x = true.
Proof. unfold select_one, select. apply hd_error_filter_holds. Qed.

(** An element selected by [span[title]] carries a [title]. *)
Lemma span_title_has_title (t l : tag) :
  select_one Sel.span_title t = Some l ->
  exists v, get_attr "title" l = Some v.
Proof.
  intros H. apply select_one_matches in H.
  unfold matches, Sel.span_title in H. simpl in H.
  apply andb_prop in H as [H _].
  unfold matches_compound in H. simpl in H.
  apply andb_prop in H as [_ H]. apply andb_prop in H as [H _].
  unfold get_attr. simpl.
  destruct (lookup_attr "title" (tattrs l)) as [v|]; [now exists v | discriminate].
Qed.

Lemma ver3_fees_text_returns (fees_td : tag) :
  exists f, Ver3.fees_text fees_td = Some f.
Proof.
  unfold Ver3.fees_text.
  destruct (select_one Sel.span_title fees_td) as [l|] eqn:El; [|eauto].
  destruct (span_title_has_title _ _ El) as [v ->]. eauto.
Qed.

(** ver3's [parse_college_row] raises on no row. *)
Lemma parse_college_row_returns (tr : tag) :
  exists c, Ver3.parse_college_row tr = Some c.
Proof.
  unfold Ver3.parse_college_row.
  destruct (Py.len (find_all_children "td" tr) <? 2); [eauto|].
  destruct (find_all_children "td" tr) as [|td0 [|info_td tds]]; [eauto | eauto |].
  destruct (select_one Sel.location info_td); simpl;
    (destruct (select_one Sel.col_fees tr) as [fees_td|]; [|eauto];
     destruct (ver3_fees_text_returns fees_td) as [f ->]; eauto).
Qed.

Lemma parsed_is_result (tr : tag) :
  Ver3.parse_college_row tr = Some (Ver3.parsed tr).
Proof.
  unfold Ver3.parsed.
  destruct (parse_college_row_returns tr) as [c ->]. reflexivity.
Qed.

End ParserFacts.

(** C10.  [parse_college_row] returns on every row, and what it returns
    is the dict of the eight keys CD Rank, College Name, City, State,
    Course Fees, Placement, User Reviews and Ranking, each holding a
    string (the record [college]): ver3's never raises, scraping.py's is
    a plain function.  On a row with fewer than two top-level [td]
    cells both return the dict with every key at the empty string, whose
    name is therefore not accepted by [if college["College Name"]]. *)
Theorem C10_parse_college_row_total_and_blank (tr : Bs4.tag) :
  (exists c : college, Ver3.parse_college_row tr = Some c) /\
  (exists c : college, Scraping.parse_college_row tr = c) /\
  (Py.len (Bs4.find_all_children "td" tr) < 2 ->
   Ver3.parse_college_row tr = Some (mkCollege "" "" "" "" "" "" "" "") /\
   Scraping.parse_college_row tr = mkCollege "" "" "" "" "" "" "" "" /\
   Py.truthy (College_Name (Ver3.parsed tr)) = false /\
   Py.truthy (College_Name (Scraping.parse_college_row tr)) = false).
Proof.
  split; [apply parse_college_row_returns|].
  split; [eexists; reflexivity|].
  intros Hlen. apply Z.ltb_lt in Hlen.
  unfold Ver3.parsed, Ver3.parse_college_row, Scraping.parse_college_row.
  rewrite Hlen. repeat split.
Qed.

Lemma C10_parse_college_row_witness :
  Py.len (Bs4.find_all_children "td" Sample.short_row) < 2 /\
  Ver3.parse_college_row Sample.short_row = Some (mkCollege "" "" "" "" "" "" "" "") /\
  Scraping.parse_college_row Sample.short_row = mkCollege "" "" "" "" "" "" "" "".
Proof.
  assert (H : Py.len (Bs4.find_all_children "td" Sample.short_row) < 2)
    by (vm_compute; reflexivity).
  split; [exact H|].
  destruct (C10_parse_college_row_total_and_blank Sample.short_row) as (_ & _ & K).
  destruct (K H) as (K1 & K2 & _). split; assumption.
Defined.

(* ================================================================== *)
(** ** Counting arguments on the list of per-page counts *)
(* ================================================================== *)

Section Counting.

Lemma streak_after_snoc e cs c :
  streak_after e (cs ++ [c]) = if c =? 0 then streak_after e cs + 1 else 0.
Proof. unfold streak_after. rewrite fold_left_app. reflexivity. Qed.

Lemma sum_snoc cs c : sum (cs ++ [c]) = sum cs + c.
Proof. unfold sum. rewrite fold_left_app. reflexivity. Qed.

Lemma streak_after_nonneg cs : forall e, 0 <= e -> 0 <= streak_after e cs.
Proof.
  induction cs as [|c cs IH]; intros e He; simpl; [exact He|].
  apply IH. destruct (c =? 0); lia.
Qed.

Lemma snoc_split {A} (l : list A) (x : A) (pre post : list A) :
  l ++ [x] = pre ++ post ->
  (post = [] /\ pre = l ++ [x]) \/
  (exists post', post = post' ++ [x] /\ l = pre ++ post').
Proof.
  intros H. destruct post as [|z post' _] using rev_ind.
  - left. rewrite app_nil_r in H. auto.
  - right. rewrite app_assoc in H. apply app_inj_tail in H as [H1 H2].
    subst z. eauto.
Qed.

Lemma streak_positive_ends_zero cs :
  1 <= streak_after 0 cs ->
  exists cs', cs = cs' ++ [0] /\ streak_after 0 cs = streak_after 0 cs' + 1.
Proof.
  destruct cs as [|c0 cs0] using rev_ind; [simpl; lia|].
  clear IHcs0. rewrite streak_after_snoc.
  destruct (c0 =? 0) eqn:E; [|lia].
  apply Z.eqb_eq in E. subst c0. intros _. eauto.
Qed.

Lemma streak_three cs :
  3 <= streak_after 0 cs <-> three_empty_at_end cs.
Proof.
  split.
  - intros H.
    destruct (streak_positive_ends_zero cs) as (c1 & -> & E1); [lia|].
    destruct (streak_positive_ends_zero c1) as (c2 & -> & E2); [lia|].
    destruct (streak_positive_ends_zero c2) as (c3 & -> & E3); [lia|].
    exists c3. now rewrite <- !app_assoc.
  - intros [pre ->].
    change [0; 0; 0] with ([0] ++ [0] ++ [0]).
    rewrite !app_assoc, !streak_after_snoc. simpl.
    pose proof (streak_after_nonneg pre 0). lia.
Qed.

Lemma empty_before_snoc its it : empty_before (its ++ [it]) = it_empty it.
Proof. unfold empty_before. now rewrite rev_app_distr. Qed.

End Counting.

(* ================================================================== *)
(** ** The page loop, pass by pass *)
(* ================================================================== *)

Section PageLoopFacts.

Variable scrape : Z -> list college -> list college * Z.
Variable expected : Z.
Variable data0 : list college.
Variable all_pages : list Z.

Lemma for_pages_unfold page rest s :
  for_pages scrape expected (page :: rest) s =
  match verdict scrape expected page s with
  | Some r => (r, step scrape page s)
  | None => for_pages scrape expected rest (step scrape page s)
  end.
Proof.
  simpl. unfold verdict, step.
  destruct (scrape page (colleges_data s)) as [data count]. simpl.
  destruct (count =? 0); simpl.
  - destruct (empty_pages s + 1 >=? 3); simpl; [reflexivity|].
    destruct (total_scraped s >=? expected); reflexivity.
  - destruct (total_scraped s + count >=? expected); reflexivity.
Qed.

(** Proof rule for the loop: an invariant of the passes that go on,
    and a conclusion for each way out. *)
Lemma for_pages_rule
    (Inv : list Z -> progress -> Prop) (Post : stop_reason -> progress -> Prop) :
  (forall s, Inv [] s -> Post PAGE_LIMIT s) ->
  (forall page rest s, Inv (page :: rest) s ->
     match verdict scrape expected page s with
     | Some r => Post r (step scrape page s)
     | None => Inv rest (step scrape page s)
     end) ->
  forall pages s, Inv pages s ->
    Post (fst (for_pages scrape expected pages s))
         (snd (for_pages scrape expected pages s)).
Proof.
  intros Hend Hstep pages.
  induction pages as [|page rest IH]; intros s HI.
  - simpl. auto.
  - rewrite for_pages_unfold. specialize (Hstep page rest s HI).
    destruct (verdict scrape expected page s) as [r|]; simpl; auto.
Qed.


(** [scrape_listing_page] appends what it accepts and returns how
    many that was. *)
Hypothesis scrape_adds :
  forall p d, exists new, scrape p d = (d ++ new, Py.len new).

Lemma counts_step page s :
  counts (step scrape page s) = counts s ++ [snd (scrape page (colleges_data s))].
Proof. unfold counts, step. simpl. now rewrite map_app. Qed.

Lemma pages_step page s : pages_of (step scrape page s) = pages_of s ++ [page].
Proof. unfold pages_of, step. simpl. now rewrite map_app. Qed.

Lemma good_start : good scrape data0 (start_of_run data0).
Proof.
  constructor; try reflexivity.
  - intros before it after H. destruct before; discriminate.
  - exists []. now rewrite app_nil_r.
Qed.

Lemma good_step page s : good scrape data0 s -> good scrape data0 (step scrape page s).
Proof.
  intros G. destruct (scrape_adds page (colleges_data s)) as [new Hnew].
  constructor.
  - rewrite counts_step, streak_after_snoc. unfold step. simpl.
    rewrite <- (good_empty _ _ s G). reflexivity.
  - rewrite counts_step, sum_snoc. unfold step. simpl.
    rewrite <- (good_total _ _ s G).
    destruct (snd (scrape page (colleges_data s)) =? 0) eqn:E; [|reflexivity].
    apply Z.eqb_eq in E. lia.
  - unfold step. simpl. now rewrite empty_before_snoc.
  - intros before it after H. unfold step in H. simpl in H.
    apply snoc_split in H as [[H _] | (post' & H1 & H2)]; [discriminate|].
    destruct post' as [|it' after'].
    + simpl in H1. injection H1 as -> ->. rewrite app_nil_r in H2. subst before.
      simpl. rewrite <- (good_last _ _ s G). split; [reflexivity|].
      split; [|eauto].
      rewrite map_app. simpl. fold (counts s). rewrite sum_snoc, <- (good_total _ _ s G).
      destruct (snd (scrape page (colleges_data s)) =? 0) eqn:E; [|reflexivity].
      apply Z.eqb_eq in E. lia.
    + simpl in H1. injection H1 as -> _. apply (good_chain _ _ s G _ _ _ H2).
  - destruct (good_data _ _ s G) as (added & Hd & Hl).
    exists (added ++ new). rewrite counts_step, sum_snoc. unfold step. simpl.
    rewrite Hnew. simpl. rewrite Hd, <- app_assoc. split; [reflexivity|].
    unfold Py.len in *. rewrite length_app. lia.
Qed.

Lemma for_pages_finished :
  finished scrape expected data0 all_pages (fst (for_pages scrape expected all_pages (start_of_run data0)))
           (snd (for_pages scrape expected all_pages (start_of_run data0))).
Proof.
  apply (for_pages_rule (running scrape expected data0 all_pages) (finished scrape expected data0 all_pages)).
  - intros s [G P S T]. constructor; auto.
    + exists []. auto.
    + intros pre post H _. eauto.
    + intros pre post H Hp _. eauto.
    + split; [discriminate|]. intros H.
      specialize (S (counts s) []). rewrite app_nil_r in S. specialize (S eq_refl). lia.
    + split; [discriminate|]. intros [H1 H2].
      specialize (T (counts s) []). rewrite app_nil_r in T. specialize (T eq_refl H1). lia.
  - intros page rest s [G P S T].
    pose proof (good_step page s G) as G'.
    assert (Hprefix : forall pre post,
               counts (step scrape page s) = pre ++ post -> post <> [] ->
               exists post', counts s = pre ++ post').
    { intros pre post H Hne. rewrite counts_step in H.
      apply snoc_split in H as [[H _] | (post' & _ & H)]; [contradiction | eauto]. }
    unfold verdict.
    set (count := snd (scrape page (colleges_data s))).
    pose proof (good_empty _ _ _ G') as Ge. pose proof (good_total _ _ _ G') as Gt.
    assert (Hcs : counts (step scrape page s) = counts s ++ [count]) by apply counts_step.
    assert (Hne : counts (step scrape page s) <> []).
    { rewrite Hcs. intros H. apply app_eq_nil in H as [_ H]. discriminate. }
    assert (He' : empty_pages (step scrape page s) =
                  if count =? 0 then empty_pages s + 1 else 0) by reflexivity.
    assert (Ht' : total_scraped (step scrape page s) =
                  if count =? 0 then total_scraped s else total_scraped s + count)
      by reflexivity.
    assert (Hlt : (count =? 0) && (empty_pages (step scrape page s) >=? 3) = false ->
                  empty_pages (step scrape page s) < 3).
    { intros E. apply andb_false_iff in E as [E|E].
      - rewrite He', E. lia.
      - rewrite Z.geb_leb in E. apply Z.leb_gt in E. exact E. }
    destruct ((count =? 0) && (empty_pages (step scrape page s) >=? 3)) eqn:E1.
    + (* the third empty page in a row *)
      apply andb_prop in E1 as [Ec E3]. apply Z.geb_le in E3.
      constructor; auto.
      * exists rest. rewrite pages_step, <- app_assoc. split; [exact P | discriminate].
      * intros pre post H Hp. destruct (Hprefix _ _ H Hp) as [post' H']. eauto.
      * intros pre post H Hpre Hp. destruct (Hprefix _ _ H Hp) as [post' H']. eauto.
      * split; [intros _; lia | reflexivity].
      * split; [discriminate|]. intros [_ H]. exfalso.
        rewrite Ec in He', Ht'.
        assert (Hs : counts s <> []).
        { intros Hnil. pose proof (good_empty _ _ _ G) as Ge0.
          rewrite Hnil in Ge0. unfold streak_after in Ge0. simpl in Ge0. lia. }
        specialize (T (counts s) []). rewrite app_nil_r in T.
        specialize (T eq_refl Hs). rewrite <- Gt, Ht' in H.
        rewrite (good_total _ _ _ G) in H. lia.
    + destruct (total_scraped (step scrape page s) >=? expected) eqn:E2.
      * (* the target is reached *)
        apply Z.geb_le in E2.
        constructor; auto.
        -- exists rest. rewrite pages_step, <- app_assoc. split; [exact P | discriminate].
        -- intros pre post H Hp. destruct (Hprefix _ _ H Hp) as [post' H']. eauto.
        -- intros pre post H Hpre Hp. destruct (Hprefix _ _ H Hp) as [post' H']. eauto.
        -- split; [discriminate|]. intros H. exfalso. rewrite <- Ge in H.
           specialize (Hlt eq_refl). lia.
        -- split; [intros _; split; [exact Hne | lia] | reflexivity].
      * (* the loop goes on *)
        rewrite Z.geb_leb in E2. apply Z.leb_gt in E2.
        constructor; auto.
        -- rewrite pages_step, <- app_assoc. exact P.
        -- intros pre post H. rewrite Hcs in H.
           apply snoc_split in H as [[_ ->] | (post' & _ & H)]; [|eauto].
           rewrite <- Hcs, <- Ge. exact (Hlt eq_refl).
        -- intros pre post H Hpre. rewrite Hcs in H.
           apply snoc_split in H as [[_ ->] | (post' & _ & H)]; [|eauto].
           rewrite <- Hcs, <- Gt. lia.
  - constructor.
    + apply good_start.
    + reflexivity.
    + intros pre post H. destruct pre; [simpl; lia | discriminate].
    + intros pre post H Hpre. destruct pre; [contradiction | discriminate].
Qed.

End PageLoopFacts.

(* ================================================================== *)
(** ** [scrape_listing_page] of ver3 and scraping.py *)
(* ================================================================== *)

Section ScrapeFacts.

Lemma fold_keep_named (cands : list college) :
  forall d n,
    fold_left Ver3.keep_named cands (d, n) =
    (d ++ filter named cands, n + Py.len (filter named cands)).
Proof.
  induction cands as [|c cands IH]; intros d n; simpl.
  - rewrite app_nil_r. unfold Py.len. simpl. f_equal. lia.
  - unfold Ver3.keep_named at 2.
    change (Py.truthy (College_Name c)) with (named c).
    destruct (named c); simpl.
    + rewrite IH, <- app_assoc. simpl. f_equal. unfold Py.len. simpl length. lia.
    + apply IH.
Qed.

Lemma ver3_scrape_listing_page_eq (w : web) (p : Z) (d : list college) :
  Ver3.scrape_listing_page w p d =
  (d ++ filter named (page_candidates Ver3.parsed w p),
   Py.len (filter named (page_candidates Ver3.parsed w p))).
Proof.
  unfold Ver3.scrape_listing_page, page_candidates.
  destruct (w p) as [soup|].
  - apply fold_keep_named.
  - simpl. now rewrite app_nil_r.
Qed.

Lemma scraping_scrape_listing_page_eq (w : web) (p : Z) (d : list college) :
  Scraping.scrape_listing_page w p d =
  (d ++ filter named (page_candidates Scraping.parse_college_row w p),
   Py.len (filter named (page_candidates Scraping.parse_college_row w p))).
Proof.
  unfold Scraping.scrape_listing_page, page_candidates.
  destruct (w p) as [soup|].
  - destruct (find_college_rows soup) as [|tr rows] eqn:E.
    + simpl. now rewrite app_nil_r.
    + change Scraping.keep_named with Ver3.keep_named. apply fold_keep_named.
  - simpl. now rewrite app_nil_r.
Qed.

Lemma filter_named_none (cands : list college) :
  forallb (fun c => negb (named c)) cands = true -> filter named cands = [].
Proof.
  induction cands as [|c cands IH]; simpl; [reflexivity|].
  intros H. apply andb_prop in H as [H1 H2].
  destruct (named c); [discriminate | auto].
Qed.

Lemma len_zero_nil {A} (l : list A) : Py.len l = 0 <-> l = [].
Proof.
  unfold Py.len. destruct l; simpl; split; intros H; try reflexivity;
    try discriminate; lia.
Qed.

(** Both versions of [scrape_listing_page] have the shape these facts
    need: what is accepted is appended, and counted. *)
Lemma appending_zero_count_law (parse : Bs4.tag -> college) (w : web)
    (scrape : Z -> list college -> list college * Z) :
  (forall p d, scrape p d =
     (d ++ filter named (page_candidates parse w p),
      Py.len (filter named (page_candidates parse w p)))) ->
  zero_count_law parse w scrape.
Proof.
  intros Heq p d. rewrite Heq. simpl. repeat split.
  - intros H. unfold page_candidates. rewrite H. simpl. now rewrite app_nil_r.
  - intros H. rewrite (filter_named_none _ H). simpl. now rewrite app_nil_r.
  - intros H. apply len_zero_nil in H. rewrite H. apply app_nil_r.
  - intros H. apply len_zero_nil.
    rewrite <- (app_nil_r d) in H at 2. now apply app_inv_head in H.
Qed.

Lemma finished_empty_streak_law
    (scrape : Z -> list college -> list college * Z) (expected : Z)
    (data0 : list college) (all_pages : list Z) (r : stop_reason * progress) :
  finished scrape expected data0 all_pages (fst r) (snd r) ->
  empty_streak_law scrape r.
Proof.
  intros [G P S T E TR]. repeat split.
  - intros H. apply streak_three. now apply E.
  - intros H. apply E. now apply streak_three.
  - intros pre post H Hp H3. apply streak_three in H3.
    specialize (S pre post H Hp). lia.
  - apply (good_chain _ _ _ G _ _ _ H).
  - intros H0. destruct (good_chain _ _ _ G _ _ _ H) as (H1 & _).
    rewrite H1. apply Z.eqb_eq in H0. now rewrite H0.
  - intros H0. destruct (good_chain _ _ _ G _ _ _ H) as (H1 & _).
    rewrite H1. apply Z.eqb_neq in H0. now rewrite H0.
Qed.

Lemma ver3_run_finished (w : web) (start_page max_pages expected_total : Z)
    (data : list college) :
  finished (Ver3.scrape_listing_page w) expected_total data
    (Py.range start_page (start_page + max_pages))
    (fst (Ver3.run w start_page max_pages expected_total data))
    (snd (Ver3.run w start_page max_pages expected_total data)).
Proof.
  apply for_pages_finished. intros p d. eexists.
  apply ver3_scrape_listing_page_eq.
Qed.

Lemma scraping_run_finished (w : web) (max_pages expected_total : Z)
    (data : list college) :
  finished (Scraping.scrape_listing_page w) expected_total data
    (Py.range 1 (max_pages + 1))
    (fst (Scraping.run w max_pages expected_total data))
    (snd (Scraping.run w max_pages expected_total data)).
Proof.
  apply for_pages_finished. intros p d. eexists.
  apply scraping_scrape_listing_page_eq.
Qed.

End ScrapeFacts.

(** C1.  In every run of the page loop (ver3 and scraping.py) the reason
    is EMPTY_STREAK exactly when the last three passes each contributed
    zero entities, never after fewer, and the run never goes on past
    three such passes in a row; a pass with a non-zero count sets the
    counter back to zero, a pass with a zero count raises it by one.  A
    pass counts zero after a failed fetch as well as after a page none of
    whose candidates is accepted, and then adds nothing. *)
Theorem C1_empty_streak_stops_run
    (w : web) (start_page max_pages expected_total : Z) (data : list college) :
  empty_streak_law (Ver3.scrape_listing_page w)
    (Ver3.run w start_page max_pages expected_total data) /\
  empty_streak_law (Scraping.scrape_listing_page w)
    (Scraping.run w max_pages expected_total data) /\
  zero_count_law Ver3.parsed w (Ver3.scrape_listing_page w) /\
  zero_count_law Scraping.parse_college_row w (Scraping.scrape_listing_page w).
Proof.
  split; [|split; [|split]].
  - eapply finished_empty_streak_law, ver3_run_finished.
  - eapply finished_empty_streak_law, scraping_run_finished.
  - apply appending_zero_count_law, ver3_scrape_listing_page_eq.
  - apply appending_zero_count_law, scraping_scrape_listing_page_eq.
Qed.

Lemma C1_empty_streak_witness :
  let w := site [Some (Sample.listing [Sample.A]); Some Sample.no_table;
                 None; Some (Sample.listing [Sample.unnamed]);
                 Some (Sample.listing [Sample.B])] in
  three_empty_at_end (counts (snd (Ver3.run w 1 1000 3000 []))) /\
  fst (Ver3.run w 1 1000 3000 []) = EMPTY_STREAK /\
  fst (Scraping.run w 3000 20558 []) = EMPTY_STREAK /\
  w 3 = None /\
  Ver3.scrape_listing_page w 3 [] = ([], 0).
Proof.
  intros w.
  destruct (C1_empty_streak_stops_run w 1 1000 3000 []) as ((E3 & _) & _ & Z3 & _).
  destruct (C1_empty_streak_stops_run w 1 3000 20558 []) as (_ & (ES & _) & _).
  assert (H3 : three_empty_at_end (counts (snd (Ver3.run w 1 1000 3000 [])))).
  { exists [1]. vm_compute. reflexivity. }
  assert (HS : three_empty_at_end (counts (snd (Scraping.run w 3000 20558 [])))).
  { exists [1]. vm_compute. reflexivity. }
  assert (Hw : w 3 = None) by reflexivity.
  split; [exact H3|]. split; [exact (proj2 E3 H3)|]. split; [exact (proj2 ES HS)|].
  split; [exact Hw|]. exact (proj1 (Z3 3 []) Hw).
Defined.

Lemma finished_target_law
    (scrape : Z -> list college -> list college * Z) (expected : Z)
    (data0 : list college) (all_pages : list Z) (r : stop_reason * progress) :
  finished scrape expected data0 all_pages (fst r) (snd r) ->
  target_law expected data0 all_pages r.
Proof.
  intros [G P S T E TR]. unfold target_law.
  split; [exact TR|]. split; [exact T|].
  split; [apply (good_total _ _ _ G)|].
  split.
  - destruct P as (rest & HP & _). eauto.
  - rewrite (good_total _ _ _ G). apply (good_data _ _ _ G).
Qed.

(** C6.  A run (scraping.py and ver3) ends with reason TARGET_REACHED
    exactly when the total accepted in the session is at least the
    target after the last page it scraped, which is the first page after
    which that holds: after every earlier page the total was below the
    target.  What the pages contributed is kept whole: [colleges_data]
    has grown by exactly the session total, which may exceed the
    target. *)
Theorem C6_target_reached_whole_page
    (w : web) (start_page max_pages expected_total : Z) (data : list college) :
  target_law expected_total data (Py.range 1 (max_pages + 1))
    (Scraping.run w max_pages expected_total data) /\
  target_law expected_total data (Py.range start_page (start_page + max_pages))
    (Ver3.run w start_page max_pages expected_total data).
Proof.
  split.
  - eapply finished_target_law, scraping_run_finished.
  - eapply finished_target_law, ver3_run_finished.
Qed.

(** Target 5 and three new entities on every page: the run stops on
    page 2 with six entities stored. *)
Lemma C6_target_reached_witness :
  let w := site [Some (Sample.listing [Sample.A; Sample.B; Sample.C]);
                 Some (Sample.listing [Sample.D; Sample.E; Sample.F]);
                 Some (Sample.listing [Sample.A; Sample.C; Sample.E])] in
  let r := Scraping.run w 3000 5 [] in
  (counts (snd r) <> [] /\ 5 <= sum (counts (snd r))) /\
  fst r = TARGET_REACHED /\
  pages_of (snd r) = [1; 2] /\
  counts (snd r) = [3; 3] /\
  length (colleges_data (snd r)) = 6%nat.
Proof.
  intros w r.
  destruct (C6_target_reached_whole_page w 1 3000 5 []) as ((HT & _) & _).
  fold r in HT.
  assert (H : counts (snd r) <> [] /\ 5 <= sum (counts (snd r))).
  { split; [vm_compute; discriminate | vm_compute; discriminate]. }
  split; [exact H|]. split; [exact (proj2 HT H)|].
  repeat split; vm_compute; reflexivity.
Defined.

(* ================================================================== *)
(** ** Pages without a listing table *)
(* ================================================================== *)

Section MissingTable.

Lemma range_cons (a b : Z) : a < b -> Py.range a b = a :: Py.range (a + 1) b.
Proof.
  intros H. unfold Py.range.
  replace (Z.to_nat (b - a)) with (S (Z.to_nat (b - (a + 1)))) by lia.
  simpl. f_equal; [lia|].
  rewrite <- seq_shift, map_map. apply map_ext. intros i. lia.
Qed.

Lemma for_pages_keeps_iterations
    (scrape : Z -> list college -> list college * Z) (expected : Z) (pages : list Z) :
  forall s, exists more,
    iterations (snd (for_pages scrape expected pages s)) = iterations s ++ more.
Proof.
  induction pages as [|page rest IH]; intros s.
  - exists []. simpl. now rewrite app_nil_r.
  - rewrite for_pages_unfold.
    destruct (verdict scrape expected page s).
    + simpl. eauto.
    + destruct (IH (step scrape page s)) as [more H]. rewrite H.
      unfold step. simpl. rewrite <- app_assoc. eauto.
Qed.

Lemma iterations_step
    (scrape : Z -> list college -> list college * Z) (page : Z) (s : progress) :
  exists it, iterations (step scrape page s) = iterations s ++ [it] /\ it_page it = page.
Proof. unfold step. simpl. eexists. split; reflexivity. Qed.

Lemma no_table_no_rows (soup : Bs4.tag) :
  find_listing_table soup = None -> find_college_rows soup = [].
Proof. unfold find_college_rows. now intros ->. Qed.

End MissingTable.

(** C2 (as the code has it).  A page on which no listing table is found
    is an empty page, the first page included: [scrape_listing_page]
    accepts nothing from it and returns 0, so that the pass raises the
    empty counter; with at least two pages allowed and a positive
    target, a run whose page 1 has no table goes on to fetch page 2. *)
Theorem C2_missing_table_is_empty_page
    (w : web) (p : Z) (soup : Bs4.tag) (d : list college)
    (max_pages expected_total : Z)
    (Hfetch : w p = Some soup)
    (Hbroken : find_listing_table soup = None) :
  Ver3.scrape_listing_page w p d = (d, 0) /\
  Scraping.scrape_listing_page w p d = (d, 0) /\
  (p = 1 -> 2 <= max_pages -> 0 < expected_total ->
   exists it1 it2 rest,
     iterations (snd (Scraping.run w max_pages expected_total d)) = it1 :: it2 :: rest /\
     it_page it1 = 1 /\ it_count it1 = 0 /\ it_empty it1 = 1 /\ it_page it2 = 2).
Proof.
  assert (H3 : Ver3.scrape_listing_page w p d = (d, 0)).
  { unfold Ver3.scrape_listing_page. rewrite Hfetch, (no_table_no_rows _ Hbroken).
    reflexivity. }
  assert (HS : forall d', Scraping.scrape_listing_page w p d' = (d', 0)).
  { intros d'. unfold Scraping.scrape_listing_page.
    rewrite Hfetch, (no_table_no_rows _ Hbroken). reflexivity. }
  split; [exact H3|]. split; [apply HS|].
  intros -> Hmax Hexp. unfold Scraping.run.
  rewrite (range_cons 1) by lia. rewrite (range_cons (1 + 1)) by lia.
  rewrite for_pages_unfold.
  assert (Hv : verdict (Scraping.scrape_listing_page w) expected_total 1
                 (start_of_run d) = None).
  { unfold verdict, step. rewrite HS. simpl.
    destruct (0 >=? expected_total) eqn:E; [|reflexivity].
    apply Z.geb_le in E. lia. }
  rewrite Hv.
  set (s1 := step (Scraping.scrape_listing_page w) 1 (start_of_run d)).
  assert (Hs1 : iterations s1 = [mkIteration 1 0 1 0]).
  { unfold s1, step. rewrite HS. reflexivity. }
  rewrite for_pages_unfold.
  set (s2 := step (Scraping.scrape_listing_page w) (1 + 1) s1).
  assert (Hs2 : exists it2, iterations s2 = [mkIteration 1 0 1 0; it2] /\ it_page it2 = 2).
  { destruct (iterations_step (Scraping.scrape_listing_page w) (1 + 1) s1)
      as (it2 & Hi & Hp).
    exists it2. fold s2 in Hi. rewrite Hi, Hs1. split; [reflexivity | exact Hp]. }
  destruct Hs2 as (it2 & Hs2 & Hp2).
  destruct (verdict (Scraping.scrape_listing_page w) expected_total (1 + 1) s1).
  - cbn [snd]. rewrite Hs2. exists (mkIteration 1 0 1 0), it2, []. auto.
  - destruct (for_pages_keeps_iterations (Scraping.scrape_listing_page w)
                expected_total (Py.range (1 + 1 + 1) (max_pages + 1)) s2) as [more Hm].
    rewrite Hm, Hs2. simpl. exists (mkIteration 1 0 1 0), it2, more. auto.
Qed.

Lemma C2_missing_table_witness :
  let w := site [Some Sample.no_table; Some (Sample.listing [Sample.A])] in
  w 1 = Some Sample.no_table /\
  find_listing_table Sample.no_table = None /\
  Scraping.scrape_listing_page w 1 [] = ([], 0) /\
  exists it1 it2 rest,
    iterations (snd (Scraping.run w 2 20558 [])) = it1 :: it2 :: rest /\
    it_page it1 = 1 /\ it_count it1 = 0 /\ it_empty it1 = 1 /\ it_page it2 = 2.
Proof.
  intros w.
  assert (H1 : w 1 = Some Sample.no_table) by reflexivity.
  assert (H2 : find_listing_table Sample.no_table = None) by reflexivity.
  destruct (C2_missing_table_is_empty_page w 1 Sample.no_table [] 2 20558 H1 H2)
    as (_ & HS & HR).
  split; [exact H1|]. split; [exact H2|]. split; [exact HS|].
  apply HR; [reflexivity | lia | lia].
Defined.

(** C2, as stated, fails: page 1 has no table, yet the run goes on to
    page 2 and stores what that page lists; it ends on the page limit. *)
Lemma C2_first_page_break_counterexample :
  let w := site [Some Sample.no_table; Some (Sample.listing [Sample.A])] in
  let r := Scraping.run w 2 20558 [] in
  w 1 = Some Sample.no_table /\
  find_listing_table Sample.no_table = None /\
  pages_of (snd r) = [1; 2] /\
  map College_Name (colleges_data (snd r)) = ["IIT Madras"] /\
  fst r = PAGE_LIMIT /\
  pages_of (snd (Ver3.run w 1 2 3000 [])) = [1; 2] /\
  map College_Name (colleges_data (snd (Ver3.run w 1 2 3000 []))) = ["IIT Madras"].
Proof. intros w r. repeat split. Qed.

(* ================================================================== *)
(** ** The merge of ver4 *)
(* ================================================================== *)

Section MergeFacts.

Lemma keep_new_eq (data acc : list college) (n : Z) (c : college) :
  Ver4.keep_new data (acc, n) c =
  if is_new data c then (acc ++ [c], n + 1) else (acc, n).
Proof.
  unfold Ver4.keep_new, is_new, named.
  destruct (Py.truthy (College_Name c)); simpl; [|reflexivity].
  destruct (Ver4.name_present (College_Name c) data); reflexivity.
Qed.

Lemma fold_keep_new (data cands : list college) :
  forall acc n,
    fold_left (Ver4.keep_new data) cands (acc, n) =
    (acc ++ filter (is_new data) cands, n + Py.len (filter (is_new data) cands)).
Proof.
  induction cands as [|c cands IH]; intros acc n.
  - simpl. rewrite app_nil_r. unfold Py.len. simpl. f_equal. lia.
  - cbn [fold_left filter]. rewrite keep_new_eq.
    destruct (is_new data c).
    + rewrite IH, <- app_assoc. simpl. f_equal. unfold Py.len. simpl length. lia.
    + apply IH.
Qed.

Lemma merge_eq (cands data : list college) (d : Ver4.file) :
  Ver4.merge cands data d =
  (data ++ filter (is_new data) cands,
   match filter (is_new data) cands with
   | [] => d
   | _ :: _ => Ver4.Workbook (data ++ filter (is_new data) cands)
   end,
   Py.len (filter (is_new data) cands)).
Proof.
  unfold Ver4.merge. rewrite fold_keep_new. simpl.
  destruct (filter (is_new data) cands); [now rewrite app_nil_r | reflexivity].
Qed.

Lemma name_present_app (nm : string) (l1 l2 : list college) :
  Ver4.name_present nm (l1 ++ l2) =
  Ver4.name_present nm l1 || Ver4.name_present nm l2.
Proof. apply existsb_app. Qed.

Lemma name_present_In (c : college) (l : list college) :
  In c l -> Ver4.name_present (College_Name c) l = true.
Proof.
  intros H. apply existsb_exists. exists c. split; [exact H | apply String.eqb_refl].
Qed.

Lemma name_present_iff (nm : string) (l : list college) :
  Ver4.name_present nm l = true <-> In nm (map College_Name l).
Proof.
  unfold Ver4.name_present. rewrite existsb_exists, in_map_iff. split.
  - intros (c & Hc & E). apply String.eqb_eq in E. eauto.
  - intros (c & E & Hc). exists c. split; [exact Hc|]. now apply String.eqb_eq.
Qed.

Lemma filter_none {A} (f : A -> bool) (l : list A) :
  (forall x, In x l -> f x = false) -> filter f l = [].
Proof.
  induction l as [|a l IH]; intros H; simpl; [reflexivity|].
  rewrite (H a (or_introl eq_refl)). apply IH. intros x Hx. apply H. now right.
Qed.

(** After a merge of [cands], none of them is new any more. *)
Lemma merged_not_new (data cands : list college) (c : college) :
  In c cands -> is_new (data ++ filter (is_new data) cands) c = false.
Proof.
  intros Hc. unfold is_new at 1.
  destruct (named c) eqn:Hn; [simpl | reflexivity].
  rewrite name_present_app.
  destruct (Ver4.name_present (College_Name c) data) eqn:Hp; [reflexivity|].
  simpl. rewrite name_present_In; [reflexivity|].
  apply filter_In. split; [exact Hc|]. unfold is_new. now rewrite Hn, Hp.
Qed.

Lemma merge_again (cands data : list college) (d : Ver4.file) :
  Ver4.merge cands (fst (fst (Ver4.merge cands data d)))
             (snd (fst (Ver4.merge cands data d))) =
  (fst (fst (Ver4.merge cands data d)), snd (fst (Ver4.merge cands data d)), 0).
Proof.
  rewrite (merge_eq cands data d). cbn [fst snd]. rewrite merge_eq.
  rewrite (filter_none (is_new (data ++ filter (is_new data) cands)) cands)
    by (intros x Hx; now apply merged_not_new).
  now rewrite app_nil_r.
Qed.

End MergeFacts.

(** C3.  The merge of ver4 (lines 170-185) is idempotent.  A candidate
    whose name is already in the store is not accepted and store and
    file stay as they are; merging a list of candidates a second time
    accepts nothing and leaves store and file as the first merge left
    them; a named candidate that is not yet in the store is accepted
    with count 1 and, merged again, with count 0 and no change. *)
Theorem C3_merge_idempotent (data : list college) (d : Ver4.file) :
  (forall c, Ver4.name_present (College_Name c) data = true ->
     Ver4.merge [c] data d = (data, d, 0)) /\
  (forall E,
     let '(data1, d1, _) := Ver4.merge E data d in
     Ver4.merge E data1 d1 = (data1, d1, 0)) /\
  (forall c, named c = true -> Ver4.name_present (College_Name c) data = false ->
     let '(data1, d1, n1) := Ver4.merge [c] data d in
     n1 = 1 /\ data1 = data ++ [c] /\
     Ver4.merge [c] data1 d1 = (data1, d1, 0) /\
     length (fst (fst (Ver4.merge [c] data1 d1))) = length data1).
Proof.
  split; [|split].
  - intros c Hp. rewrite merge_eq. simpl. unfold is_new. rewrite Hp.
    rewrite andb_false_r. now rewrite app_nil_r.
  - intros E. pose proof (merge_again E data d) as H.
    destruct (Ver4.merge E data d) as [[data1 d1] n1]. exact H.
  - intros c Hn Hp. pose proof (merge_again [c] data d) as H.
    assert (E : Ver4.merge [c] data d =
                (data ++ [c], Ver4.Workbook (data ++ [c]), 1)).
    { rewrite merge_eq. simpl. unfold is_new. rewrite Hn, Hp. reflexivity. }
    rewrite E in H |- *. cbn [fst snd] in H. rewrite H. auto.
Qed.

Lemma C3_merge_idempotent_witness :
  let a := mkCollege "#1" "IIT Madras" "Chennai" "Tamil Nadu" "" "" "" "" in
  named a = true /\
  Ver4.name_present (College_Name a) [] = false /\
  Ver4.merge [a] [] Ver4.Missing = ([a], Ver4.Workbook [a], 1) /\
  Ver4.merge [a] [a] (Ver4.Workbook [a]) = ([a], Ver4.Workbook [a], 0).
Proof.
  intros a.
  assert (Hn : named a = true) by reflexivity.
  assert (Hp : Ver4.name_present (College_Name a) [] = false) by reflexivity.
  destruct (C3_merge_idempotent [] Ver4.Missing) as (_ & _ & H).
  specialize (H a Hn Hp).
  destruct (Ver4.merge [a] [] Ver4.Missing) as [[data1 d1] n1] eqn:E.
  destruct H as (H1 & H2 & H3 & _). subst n1 data1.
  assert (Hd : d1 = Ver4.Workbook [a]).
  { vm_compute in E. now injection E as <-. }
  subst d1. repeat split; assumption.
Defined.

(* ================================================================== *)
(** ** Loading, saving and resuming in ver4 *)
(* ================================================================== *)

Section CheckpointFacts.

Lemma ver4_scrape_listing_page_eq (w : web) (p : Z) (s : Ver4.scraper) :
  Ver4.scrape_listing_page w p s =
  match w p with
  | None =>
      (Ver4.mkScraper (Ver4.colleges_data s) (Ver4.disk s)
         (Ver4.log s ++ [Fetch p]), 0)
  | Some _ =>
      let new := filter (is_new (Ver4.colleges_data s))
                   (page_candidates Ver4.parsed w p) in
      (Ver4.mkScraper (Ver4.colleges_data s ++ new)
         (match new with
          | [] => Ver4.disk s
          | _ :: _ => Ver4.Workbook (Ver4.colleges_data s ++ new)
          end)
         (Ver4.log s ++ [Fetch p; Parse p]),
       Py.len new)
  end.
Proof.
  unfold Ver4.scrape_listing_page, page_candidates.
  destruct (w p) as [soup|]; [|reflexivity].
  rewrite merge_eq. reflexivity.
Qed.

Lemma file_states_eq (w : web) (p : Z) (s : Ver4.scraper) :
  Ver4.file_states w p s =
  match filter (is_new (Ver4.colleges_data s)) (page_candidates Ver4.parsed w p) with
  | [] => [Ver4.disk s]
  | c :: new =>
      [Ver4.disk s; Ver4.Torn;
       Ver4.Workbook (Ver4.colleges_data s ++ c :: new)]
  end.
Proof.
  unfold Ver4.file_states, page_candidates.
  destruct (w p) as [soup|]; [|reflexivity].
  rewrite fold_keep_new. cbn [app].
  destruct (filter (is_new (Ver4.colleges_data s))
              (map Ver4.parsed (find_college_rows soup))); reflexivity.
Qed.

(** One new candidate among candidates that are already stored. *)
Lemma filter_one_new (data l1 l2 : list college) (c : college) :
  (forall x, In x (l1 ++ l2) -> Ver4.name_present (College_Name x) data = true) ->
  named c = true -> Ver4.name_present (College_Name c) data = false ->
  filter (is_new data) (l1 ++ c :: l2) = [c].
Proof.
  intros Hold Hn Hp.
  assert (Hf : forall l, (forall x, In x l -> In x (l1 ++ l2)) ->
                         filter (is_new data) l = []).
  { intros l Hl. apply filter_none. intros x Hx. unfold is_new.
    rewrite (Hold x (Hl x Hx)). apply andb_false_r. }
  rewrite filter_app. simpl.
  rewrite (Hf l1) by (intros x Hx; apply in_or_app; now left).
  rewrite (Hf l2) by (intros x Hx; apply in_or_app; now right).
  unfold is_new. now rewrite Hn, Hp.
Qed.

End CheckpointFacts.

(** C5.  Started without a file, the scraper holds the empty list and
    nothing is raised.  Started on a file with the rows [rows], it
    holds exactly these rows, and the test for a known name used in
    merging is membership among their names.  If the next page then
    yields candidates that are all among these rows by name, and one
    named candidate [c] that is not, exactly [c] is accepted: the count
    is 1 and [c] is appended to the rows, in the store and in the file. *)
Theorem C5_load_and_resume
    (rows : list college) (w : web) (p : Z) (l1 l2 : list college) (c : college)
    (Hpage : page_candidates Ver4.parsed w p = l1 ++ c :: l2)
    (Hold : forall x, In x (l1 ++ l2) ->
              Ver4.name_present (College_Name x) rows = true)
    (Hnamed : named c = true)
    (Hfresh : Ver4.name_present (College_Name c) rows = false) :
  Ver4.init Ver4.Missing = Some (Ver4.mkScraper [] Ver4.Missing []) /\
  Ver4.init (Ver4.Workbook rows) =
    Some (Ver4.mkScraper rows (Ver4.Workbook rows) []) /\
  (forall nm, Ver4.name_present nm rows = true <-> In nm (map College_Name rows)) /\
  Ver4.scrape_listing_page w p (Ver4.mkScraper rows (Ver4.Workbook rows) []) =
    (Ver4.mkScraper (rows ++ [c]) (Ver4.Workbook (rows ++ [c])) [Fetch p; Parse p], 1).
Proof.
  split; [reflexivity|]. split; [reflexivity|].
  split; [intros nm; apply name_present_iff|].
  rewrite ver4_scrape_listing_page_eq.
  destruct (w p) as [soup|] eqn:Ew.
  - cbn [Ver4.colleges_data Ver4.disk Ver4.log]. rewrite Hpage.
    rewrite (filter_one_new rows l1 l2 c Hold Hnamed Hfresh). reflexivity.
  - unfold page_candidates in Hpage. rewrite Ew in Hpage.
    destruct l1; discriminate.
Qed.

(** A first session stores A and B and writes them out; the next
    session loads them, meets a page listing A, B and C, and accepts C
    only. *)
Lemma C5_load_and_resume_witness :
  let w1 := site [Some (Sample.listing [Sample.A; Sample.B])] in
  let w2 := site [Some (Sample.listing [Sample.A; Sample.B; Sample.C])] in
  let s1 := fst (Ver4.scrape_listing_page w1 1 (Ver4.mkScraper [] Ver4.Missing [])) in
  let rows := Ver4.colleges_data s1 in
  exists a b c,
    rows = [a; b] /\
    Ver4.disk s1 = Ver4.Workbook rows /\
    page_candidates Ver4.parsed w2 1 = [a; b] ++ c :: [] /\
    named c = true /\
    Ver4.name_present (College_Name c) rows = false /\
    Ver4.init (Ver4.disk s1) = Some (Ver4.mkScraper rows (Ver4.Workbook rows) []) /\
    Ver4.scrape_listing_page w2 1 (Ver4.mkScraper rows (Ver4.Workbook rows) []) =
      (Ver4.mkScraper (rows ++ [c]) (Ver4.Workbook (rows ++ [c])) [Fetch 1; Parse 1], 1).
Proof.
  intros w1 w2 s1 rows.
  destruct (page_candidates Ver4.parsed w2 1) as [|a [|b [|c [|x l]]]] eqn:E;
    try (vm_compute in E; discriminate).
  exists a, b, c.
  assert (Hrows : rows = [a; b]).
  { vm_compute in E. injection E as <- <- <-. vm_compute. reflexivity. }
  assert (Hc : named c = true).
  { vm_compute in E. injection E as <- <- <-. reflexivity. }
  assert (Hf : Ver4.name_present (College_Name c) rows = false).
  { vm_compute in E. injection E as <- <- <-. vm_compute. reflexivity. }
  assert (Hold : forall x, In x ([a; b] ++ []) ->
                   Ver4.name_present (College_Name x) rows = true).
  { intros x Hx. rewrite Hrows. simpl in Hx.
    destruct Hx as [<- | [<- | []]]; unfold Ver4.name_present; simpl;
      rewrite String.eqb_refl; [reflexivity | apply orb_true_r]. }
  destruct (C5_load_and_resume rows w2 1 [a; b] [] c E Hold Hc Hf)
    as (_ & Hl & _ & Hs).
  assert (Hd : Ver4.disk s1 = Ver4.Workbook rows) by (vm_compute; reflexivity).
  split; [exact Hrows|]. split; [exact Hd|]. split; [reflexivity|].
  split; [exact Hc|]. split; [exact Hf|].
  split; [rewrite Hd; exact Hl | exact Hs].
Defined.

Section WriteThrough.

Lemma in_step_after_page (w : web) (p : Z) (s : Ver4.scraper) :
  in_step s -> in_step (fst (Ver4.scrape_listing_page w p s)).
Proof.
  unfold in_step. intros H. rewrite ver4_scrape_listing_page_eq.
  destruct (w p) as [soup|]; cbn [fst Ver4.disk Ver4.colleges_data]; [|exact H].
  destruct (filter (is_new (Ver4.colleges_data s)) (page_candidates Ver4.parsed w p)).
  - now rewrite app_nil_r.
  - reflexivity.
Qed.

Lemma in_step_after_pass (w : web) (s : Ver4.scraper) (l : Ver4.loop) :
  in_step s -> in_step (snd (fst (Ver4.pass w s l))).
Proof.
  intros H. unfold Ver4.pass.
  pose proof (in_step_after_page w (Ver4.page l) s H) as H'.
  destruct (Ver4.scrape_listing_page w (Ver4.page l) s) as [s' count].
  cbn [fst] in H'.
  destruct (count =? 0); [destruct (Ver4.empty_pages l + 1 >=? 3)|]; exact H'.
Qed.

Lemma in_step_after_run (fuel : nat) (w : web) :
  forall s l, in_step s -> in_step (snd (fst (Ver4.run_loop fuel w s l))).
Proof.
  induction fuel as [|fuel IH]; intros s l H; [exact H|].
  cbn [Ver4.run_loop].
  pose proof (in_step_after_pass w s l H) as H'.
  destruct (Ver4.pass w s l) as [[stop s'] l']. cbn [fst snd] in H'.
  destruct stop; [exact H' | now apply IH].
Qed.

End WriteThrough.

(** C4 (as the code has it).  [scrape_listing_page] of ver4 writes the
    checkpoint in place: [to_excel] is given [EXCEL_FILE] itself, there
    is no temporary file and no rename.  When the page brings nothing
    new the file is not touched.  When it does, the file still is the
    prior checkpoint after the merge and until the write begins, and
    once the write is complete it is a workbook of the whole current
    collection. *)
Theorem C4_checkpoint_written_in_place (w : web) (p : Z) (s : Ver4.scraper) :
  let '(s', n) := Ver4.scrape_listing_page w p s in
  (n = 0 -> Ver4.file_states w p s = [Ver4.disk s] /\ Ver4.disk s' = Ver4.disk s) /\
  (0 < n ->
   Ver4.file_states w p s =
     [Ver4.disk s; Ver4.to_excel_open (Ver4.disk s);
      Ver4.to_excel (Ver4.colleges_data s') (Ver4.disk s)] /\
   Ver4.disk s' = Ver4.Workbook (Ver4.colleges_data s')).
Proof.
  rewrite ver4_scrape_listing_page_eq, file_states_eq.
  destruct (w p) as [soup|] eqn:Ew.
  - cbn zeta.
    destruct (filter (is_new (Ver4.colleges_data s)) (page_candidates Ver4.parsed w p))
      as [|c new] eqn:Ef.
    + split; [auto|]. unfold Py.len. simpl. lia.
    + split; [unfold Py.len; simpl; lia|]. intros _. split; reflexivity.
  - unfold page_candidates. rewrite Ew. simpl. split; [auto | lia].
Qed.

(** C4, as stated, fails: the prior checkpoint holds A; the page brings
    B; after the merge and before the write is complete the file is no
    longer the prior checkpoint, and a scraper started on it raises. *)
Lemma C4_torn_checkpoint_counterexample :
  let a := mkCollege "#1" "IIT Madras" "Chennai" "Tamil Nadu" "" "" "" "" in
  let prior := Ver4.Workbook [a] in
  let s := Ver4.mkScraper [a] prior [] in
  let w := site [Some (Sample.listing [Sample.A; Sample.B])] in
  Ver4.init prior = Some s /\
  snd (Ver4.scrape_listing_page w 1 s) = 1 /\
  nth 1 (Ver4.file_states w 1 s) prior <> prior /\
  Ver4.init (nth 1 (Ver4.file_states w 1 s) prior) = None /\
  length (Ver4.file_states w 1 s) = 3%nat.
Proof.
  intros a prior s w.
  split; [reflexivity|]. split; [reflexivity|].
  split; [vm_compute; discriminate|]. split; reflexivity.
Qed.

(** C7 (as the code has it).  Write-through in ver4: if the file holds
    what the scraper holds, then after [scrape_listing_page] it does so
    again; a page that accepts something leaves a workbook of the whole
    current collection before the call returns, a page that accepts
    nothing leaves file and collection as they were.  Hence between the
    passes of [run] the file always holds the whole collection, and any
    file a killed call leaves behind that can be loaded holds either the
    collection as it was before the call or as it is after it. *)
Theorem C7_write_through
    (w : web) (p : Z) (s : Ver4.scraper) (fuel : nat) (start_page : Z)
    (Hs : in_step s) :
  (let '(s', n) := Ver4.scrape_listing_page w p s in
   in_step s' /\
   (exists new, Ver4.colleges_data s' = Ver4.colleges_data s ++ new /\ Py.len new = n) /\
   (0 < n -> Ver4.disk s' = Ver4.Workbook (Ver4.colleges_data s')) /\
   (n = 0 -> Ver4.disk s' = Ver4.disk s /\
             Ver4.colleges_data s' = Ver4.colleges_data s) /\
   (forall d rows, In d (Ver4.file_states w p s) -> durable d = Some rows ->
      rows = Ver4.colleges_data s \/ rows = Ver4.colleges_data s')) /\
  in_step (snd (fst (Ver4.run fuel w start_page s))).
Proof.
  split; [|now apply in_step_after_run].
  pose proof (in_step_after_page w p s Hs) as H'.
  rewrite file_states_eq. rewrite ver4_scrape_listing_page_eq in H' |- *.
  destruct (w p) as [soup|] eqn:Ew.
  - cbn zeta in H' |- *. cbn [fst] in H'.
    destruct (filter (is_new (Ver4.colleges_data s)) (page_candidates Ver4.parsed w p))
      as [|c new] eqn:Ef.
    + split; [exact H'|]. cbn [Ver4.colleges_data Ver4.disk].
      split; [exists []; split; reflexivity|].
      split; [unfold Py.len; simpl; lia|].
      split; [intros _; now rewrite app_nil_r|].
      intros d rows [<- | []] Hd. left. unfold in_step in Hs. congruence.
    + split; [exact H'|]. cbn [Ver4.colleges_data Ver4.disk].
      split; [exists (c :: new); split; reflexivity|].
      split; [reflexivity|].
      split; [unfold Py.len; simpl; lia|].
      intros d rows [<- | [<- | [<- | []]]] Hd.
      * left. unfold in_step in Hs. congruence.
      * discriminate.
      * right. simpl in Hd. congruence.
  - cbn [fst] in H'. split; [exact H'|]. cbn [Ver4.colleges_data Ver4.disk].
    split; [exists []; split; [now rewrite app_nil_r | reflexivity]|].
    split; [lia|]. split; [auto|].
    unfold page_candidates. rewrite Ew. simpl.
    intros d rows [<- | []] Hd. left. unfold in_step in Hs. congruence.
Qed.

Lemma C7_write_through_witness :
  let s0 := Ver4.mkScraper [] Ver4.Missing [] in
  let w := site [Some (Sample.listing [Sample.A]); None;
                 Some (Sample.listing [Sample.A; Sample.B])] in
  in_step s0 /\
  in_step (snd (fst (Ver4.run 3 w 1 s0))) /\
  in_step (fst (Ver4.scrape_listing_page w 1 s0)).
Proof.
  intros s0 w.
  assert (H0 : in_step s0) by reflexivity.
  destruct (C7_write_through w 1 s0 3 1 H0) as (H1 & H2).
  destruct (Ver4.scrape_listing_page w 1 s0) as [s' n].
  destruct H1 as (H1 & _).
  split; [exact H0|]. split; [exact H2 | exact H1].
Defined.

(** C7, as stated, fails: page 1 was completed and its entity written
    out; the call for page 2 is killed while it writes; what is left on
    the disk cannot be loaded, so the entity of page 1 is lost too. *)
Lemma C7_prior_page_lost_counterexample :
  let s0 := Ver4.mkScraper [] Ver4.Missing [] in
  let w := site [Some (Sample.listing [Sample.A]); Some (Sample.listing [Sample.B])] in
  let s1 := fst (Ver4.scrape_listing_page w 1 s0) in
  map College_Name (Ver4.colleges_data s1) = ["IIT Madras"] /\
  Ver4.disk s1 = Ver4.Workbook (Ver4.colleges_data s1) /\
  In Ver4.Torn (Ver4.file_states w 2 s1) /\
  durable Ver4.Torn = None /\
  Ver4.init Ver4.Torn = None.
Proof.
  intros s0 w s1.
  split; [reflexivity|]. split; [reflexivity|].
  split; [vm_compute; auto|]. split; reflexivity.
Qed.

(* ================================================================== *)
(** ** Only named entities are accepted *)
(* ================================================================== *)

Section NamedOnly.

Lemma named_iff (c : college) : named c = true <-> College_Name c <> "".
Proof.
  unfold named. destruct (College_Name c); simpl; split; intros H;
    try discriminate; try reflexivity; congruence.
Qed.

Lemma is_new_named (data : list college) (c : college) :
  is_new data c = true -> named c = true.
Proof. unfold is_new. intros H. now apply andb_prop in H as [H _]. Qed.

Lemma Forall_filter_named (f : college -> bool) (l : list college) :
  (forall c, f c = true -> named c = true) ->
  Forall (fun c => College_Name c <> "") (filter f l).
Proof.
  intros Hf. apply Forall_forall. intros c Hc.
  apply filter_In in Hc as [_ Hc]. apply named_iff. auto.
Qed.

Lemma reachable_named (scrape : web -> Z -> list college -> list college * Z)
    (parse : Bs4.tag -> college) :
  (forall w p d, scrape w p d =
     (d ++ filter named (page_candidates parse w p),
      Py.len (filter named (page_candidates parse w p)))) ->
  forall d, reachable scrape d -> Forall (fun c => College_Name c <> "") d.
Proof.
  intros Heq d H. induction H as [|w p d H IH]; [constructor|].
  rewrite Heq. cbn [fst]. apply Forall_app. split; [exact IH|].
  now apply Forall_filter_named.
Qed.

Lemma reachable4_named (s : Ver4.scraper) :
  reachable4 s ->
  Forall (fun c => College_Name c <> "") (Ver4.colleges_data s) /\
  (forall rows, durable (Ver4.disk s) = Some rows ->
     Forall (fun c => College_Name c <> "") rows).
Proof.
  intros H. induction H as [|w p s H [IH1 IH2]|w p s s' d H [IH1 IH2] Hd Hi].
  - split; [constructor|]. intros rows [= <-]. constructor.
  - assert (Hnew : Forall (fun c => College_Name c <> "")
                     (Ver4.colleges_data s ++
                      filter (is_new (Ver4.colleges_data s))
                        (page_candidates Ver4.parsed w p))).
    { apply Forall_app. split; [exact IH1|].
      apply Forall_filter_named. apply is_new_named. }
    rewrite ver4_scrape_listing_page_eq.
    destruct (w p) as [soup|]; cbn [fst Ver4.colleges_data Ver4.disk]; [|auto].
    split; [exact Hnew|].
    destruct (filter (is_new (Ver4.colleges_data s)) (page_candidates Ver4.parsed w p));
      [exact IH2|].
    intros rows [= <-]. exact Hnew.
  - assert (Hrows : forall rows, durable d = Some rows ->
                      Forall (fun c => College_Name c <> "") rows).
    { rewrite file_states_eq in Hd.
      destruct (filter (is_new (Ver4.colleges_data s))
                  (page_candidates Ver4.parsed w p)) as [|c new] eqn:Ef.
      - destruct Hd as [<- | []]. exact IH2.
      - destruct Hd as [<- | [<- | [<- | []]]]; [exact IH2 | discriminate |].
        intros rows [= <-]. apply Forall_app. split; [exact IH1|].
        rewrite <- Ef. apply Forall_filter_named. apply is_new_named. }
    destruct d as [|rows|]; simpl in Hi; try discriminate;
      injection Hi as <-; cbn [Ver4.colleges_data Ver4.disk].
    + split; [constructor | exact Hrows].
    + split; [apply Hrows; reflexivity | exact Hrows].
Qed.

End NamedOnly.

(** C8.  A candidate whose name is the empty string is never accepted.
    Every list [colleges_data] can become in ver3 and scraping.py, and
    every scraper and checkpoint that can come about in ver4 (restarts
    after a killed call included), holds only entities with a non-empty
    name.  What a page adds is the named candidates (in ver4: the
    named candidates whose name is not yet stored), and the returned
    count is their number. *)
Theorem C8_unnamed_never_accepted :
  (forall d, reachable Ver3.scrape_listing_page d ->
     Forall (fun c => College_Name c <> "") d) /\
  (forall d, reachable Scraping.scrape_listing_page d ->
     Forall (fun c => College_Name c <> "") d) /\
  (forall s, reachable4 s ->
     Forall (fun c => College_Name c <> "") (Ver4.colleges_data s) /\
     (forall rows, Ver4.disk s = Ver4.Workbook rows ->
        Forall (fun c => College_Name c <> "") rows)) /\
  (forall w p d,
     Ver3.scrape_listing_page w p d =
     (d ++ filter named (page_candidates Ver3.parsed w p),
      Py.len (filter named (page_candidates Ver3.parsed w p)))) /\
  (forall w p d,
     Scraping.scrape_listing_page w p d =
     (d ++ filter named (page_candidates Scraping.parse_college_row w p),
      Py.len (filter named (page_candidates Scraping.parse_college_row w p)))) /\
  (forall w p s,
     exists accepted,
       accepted = filter (fun c => is_new (Ver4.colleges_data s) c)
                    (filter named (page_candidates Ver4.parsed w p)) /\
       Ver4.colleges_data (fst (Ver4.scrape_listing_page w p s)) =
         Ver4.colleges_data s ++ accepted /\
       snd (Ver4.scrape_listing_page w p s) = Py.len accepted) /\
  (forall c, named c = true <-> College_Name c <> "").
Proof.
  split; [apply (reachable_named _ Ver3.parsed), ver3_scrape_listing_page_eq|].
  split; [apply (reachable_named _ Scraping.parse_college_row),
            scraping_scrape_listing_page_eq|].
  split.
  { intros s H. destruct (reachable4_named s H) as [H1 H2].
    split; [exact H1|]. intros rows E. apply H2. now rewrite E. }
  split; [apply ver3_scrape_listing_page_eq|].
  split; [apply scraping_scrape_listing_page_eq|].
  split; [|apply named_iff].
  intros w p s. eexists. split; [reflexivity|].
  assert (E : forall l, filter (fun c => is_new (Ver4.colleges_data s) c) (filter named l)
                        = filter (is_new (Ver4.colleges_data s)) l).
  { induction l as [|c l IH]; [reflexivity|]. simpl.
    destruct (named c) eqn:Hn; simpl.
    - rewrite IH. reflexivity.
    - unfold is_new at 2. rewrite Hn. simpl. exact IH. }
  rewrite E, ver4_scrape_listing_page_eq.
  destruct (w p) as [soup|] eqn:Ew; cbn [fst snd Ver4.colleges_data].
  - split; reflexivity.
  - unfold page_candidates. rewrite Ew. simpl. now rewrite app_nil_r.
Qed.

(** A page listing A and a row without a name: A alone is stored and
    counted, in all three versions. *)
Lemma C8_unnamed_never_accepted_witness :
  let w := site [Some (Sample.listing [Sample.A; Sample.unnamed])] in
  reachable Ver3.scrape_listing_page (fst (Ver3.scrape_listing_page w 1 [])) /\
  Forall (fun c => College_Name c <> "") (fst (Ver3.scrape_listing_page w 1 [])) /\
  map College_Name (page_candidates Ver3.parsed w 1) = ["IIT Madras"; ""] /\
  Ver3.scrape_listing_page w 1 [] =
    (filter named (page_candidates Ver3.parsed w 1), 1).
Proof.
  intros w.
  destruct C8_unnamed_never_accepted as (H3 & _ & _ & E3 & _).
  assert (R : reachable Ver3.scrape_listing_page (fst (Ver3.scrape_listing_page w 1 [])))
    by (apply reach_page, reach_start).
  split; [exact R|]. split; [exact (H3 _ R)|]. split; [reflexivity|].
  rewrite E3. reflexivity.
Defined.

(* ================================================================== *)
(** ** Failed fetches and the order of the pages *)
(* ================================================================== *)

Section FetchOrder.

Lemma fetched_app (l1 l2 : list event) : fetched (l1 ++ l2) = fetched l1 ++ fetched l2.
Proof. apply flat_map_app. Qed.

Lemma range_empty (a : Z) : Py.range a (a + 0) = [].
Proof. unfold Py.range. now replace (a + 0 - a) with 0 by lia. Qed.

Lemma range_increasing (a b : Z) : StronglySorted Z.lt (Py.range a b).
Proof.
  unfold Py.range. generalize (Z.to_nat (b - a)) as n. intros n. revert a.
  induction n as [|n IH]; intros a; [constructor|].
  simpl. rewrite <- seq_shift, map_map.
  rewrite (map_ext _ (fun i => (a + 1) + Z.of_nat i)) by (intros i; lia).
  constructor; [apply IH|].
  apply Forall_forall. intros x Hx. apply in_map_iff in Hx as (i & <- & _). lia.
Qed.

Lemma firstn_seq_min (k : nat) : forall a n, firstn k (seq a n) = seq a (Nat.min k n).
Proof.
  induction k as [|k IH]; intros a n; [reflexivity|].
  destruct n as [|n]; [reflexivity|]. simpl. f_equal. apply IH.
Qed.

Lemma firstn_range (k : nat) (a b : Z) :
  exists n : nat, firstn k (Py.range a b) = Py.range a (a + Z.of_nat n).
Proof.
  exists (Nat.min k (Z.to_nat (b - a))). unfold Py.range.
  rewrite firstn_map, firstn_seq_min. do 2 f_equal. lia.
Qed.

Lemma scrape_log (w : web) (p : Z) (s : Ver4.scraper) :
  Ver4.log (fst (Ver4.scrape_listing_page w p s)) = Ver4.log s ++ calls_of w p.
Proof.
  rewrite ver4_scrape_listing_page_eq. unfold calls_of.
  destruct (w p); reflexivity.
Qed.

Lemma pass_log_page (w : web) (s : Ver4.scraper) (l : Ver4.loop) :
  Ver4.log (snd (fst (Ver4.pass w s l))) = Ver4.log s ++ calls_of w (Ver4.page l) /\
  Ver4.page (snd (Ver4.pass w s l)) =
    (if fst (fst (Ver4.pass w s l)) then Ver4.page l else Ver4.page l + 1).
Proof.
  unfold Ver4.pass. pose proof (scrape_log w (Ver4.page l) s) as H.
  destruct (Ver4.scrape_listing_page w (Ver4.page l) s) as [s' count].
  cbn [fst] in H.
  destruct (count =? 0); [destruct (Ver4.empty_pages l + 1 >=? 3)|];
    cbn [fst snd Ver4.page]; auto.
Qed.

Lemma calls_of_order (w : web) (p : Z) :
  fetched (calls_of w p) = [p] /\
  (forall q, In (Parse q) (calls_of w p) -> w q <> None).
Proof.
  unfold calls_of. destruct (w p) as [soup|] eqn:E; split; try reflexivity.
  - intros q [H | [H | []]]; [discriminate|]. injection H as <-. congruence.
  - intros q [H | []]. discriminate.
Qed.

Lemma run_loop_order (w : web) (fuel : nat) :
  forall s l,
    exists (n : nat) (evs : list event),
      Ver4.log (snd (fst (Ver4.run_loop fuel w s l))) = Ver4.log s ++ evs /\
      fetched evs = Py.range (Ver4.page l) (Ver4.page l + Z.of_nat n) /\
      (forall q, In (Parse q) evs -> w q <> None) /\
      (n <= fuel)%nat /\
      Ver4.page (snd (Ver4.run_loop fuel w s l)) =
        (if fst (fst (Ver4.run_loop fuel w s l))
         then Ver4.page l + Z.of_nat n - 1 else Ver4.page l + Z.of_nat n).
Proof.
  induction fuel as [|fuel IH]; intros s l.
  - exists 0%nat, []. cbn [Ver4.run_loop fst snd]. rewrite app_nil_r, range_empty.
    split; [reflexivity|]. split; [reflexivity|]. split; [intros q []|].
    split; [lia | simpl; lia].
  - cbn [Ver4.run_loop].
    destruct (pass_log_page w s l) as (Hlog & Hpage).
    destruct (calls_of_order w (Ver4.page l)) as (Hf & Hp).
    destruct (Ver4.pass w s l) as [[stop s'] l']. cbn [fst snd] in Hlog, Hpage.
    destruct stop.
    + exists 1%nat, (calls_of w (Ver4.page l)). cbn [fst snd].
      rewrite Hf, (range_cons (Ver4.page l)) by lia.
      replace (Ver4.page l + Z.of_nat 1) with (Ver4.page l + 1 + 0) by lia.
      rewrite range_empty.
      split; [exact Hlog|]. split; [reflexivity|]. split; [exact Hp|].
      split; [lia|]. rewrite Hpage. lia.
    + destruct (IH s' l') as (n & evs & H1 & H2 & H3 & H4 & H5).
      exists (S n), (calls_of w (Ver4.page l) ++ evs).
      rewrite H1, Hlog, <- app_assoc, fetched_app, Hf, H2, Hpage.
      rewrite (range_cons (Ver4.page l)) by lia.
      replace (Ver4.page l + Z.of_nat (S n)) with (Ver4.page l + 1 + Z.of_nat n) by lia.
      split; [reflexivity|]. split; [reflexivity|].
      split; [intros q Hq; apply in_app_or in Hq as [Hq | Hq]; auto|].
      split; [lia|].
      rewrite H5, Hpage.
      destruct (fst (fst (Ver4.run_loop fuel w s' l'))); lia.
Qed.

(** In stage 1 the outcome of the page loop, apart from the log, depends
    on the answers to the pages asked for only. *)
Lemma stream_pages_ext (urljoin : string -> string -> string)
    (f f' : string -> Z -> option Bs4.tag) (name base : string) (pages : list Z) :
  (forall q, In q pages -> f base q = f' base q) ->
  forall s t,
    Stage1.collected s = Stage1.collected t ->
    Stage1.empty_pages s = Stage1.empty_pages t ->
    Stage1.collected (Stage1.stream_pages urljoin f name base pages s) =
    Stage1.collected (Stage1.stream_pages urljoin f' name base pages t) /\
    Stage1.empty_pages (Stage1.stream_pages urljoin f name base pages s) =
    Stage1.empty_pages (Stage1.stream_pages urljoin f' name base pages t).
Proof.
  induction pages as [|page rest IH]; intros Hf s t Hc He; [auto|].
  cbn [Stage1.stream_pages].
  rewrite <- (Hf page (or_introl eq_refl)).
  assert (Hrest : forall q, In q rest -> f base q = f' base q)
    by (intros q Hq; apply Hf; now right).
  destruct (f base page) as [soup|].
  - destruct (Stage1.extract_profile_urls urljoin soup) as [|u urls].
    + rewrite He. destruct (Stage1.empty_pages t + 1 >=? 3).
      * cbn [Stage1.collected Stage1.empty_pages]. auto.
      * apply IH; auto.
    + apply IH; auto. cbn [Stage1.collected]. now rewrite Hc.
  - rewrite He. destruct (Stage1.empty_pages t + 1 >=? 3).
    + cbn [Stage1.collected Stage1.empty_pages]. auto.
    + apply IH; auto.
Qed.

Lemma stream_pages_order (urljoin : string -> string -> string)
    (f : string -> Z -> option Bs4.tag) (name base : string) (pages : list Z) :
  forall s,
    exists (k : nat) (evs : list event),
      Stage1.log (Stage1.stream_pages urljoin f name base pages s) =
        Stage1.log s ++ evs /\
      fetched evs = firstn k pages /\
      (forall q, In (Parse q) evs -> f base q <> None).
Proof.
  induction pages as [|page rest IH]; intros s.
  - exists 0%nat, []. cbn [Stage1.stream_pages]. rewrite app_nil_r.
    split; [reflexivity|]. split; [reflexivity | intros q []].
  - cbn [Stage1.stream_pages].
    assert (Hstop : forall evs0 s',
               Stage1.log s' = Stage1.log s ++ evs0 -> fetched evs0 = [page] ->
               (forall q, In (Parse q) evs0 -> f base q <> None) ->
               exists (k : nat) (evs : list event),
                 Stage1.log s' = Stage1.log s ++ evs /\
                 fetched evs = firstn k (page :: rest) /\
                 (forall q, In (Parse q) evs -> f base q <> None)).
    { intros evs0 s' H1 H2 H3. exists 1%nat, evs0. auto. }
    assert (Hgo : forall evs0 s',
               Stage1.log s' = Stage1.log s ++ evs0 -> fetched evs0 = [page] ->
               (forall q, In (Parse q) evs0 -> f base q <> None) ->
               exists (k : nat) (evs : list event),
                 Stage1.log (Stage1.stream_pages urljoin f name base rest s') =
                   Stage1.log s ++ evs /\
                 fetched evs = firstn k (page :: rest) /\
                 (forall q, In (Parse q) evs -> f base q <> None)).
    { intros evs0 s' H1 H2 H3. destruct (IH s') as (k & evs & K1 & K2 & K3).
      exists (S k), (evs0 ++ evs). rewrite K1, H1, <- app_assoc, fetched_app, H2, K2.
      split; [reflexivity|]. split; [reflexivity|].
      intros q Hq. apply in_app_or in Hq as [Hq | Hq]; auto. }
    destruct (f base page) as [soup|] eqn:Ef.
    + assert (HP : forall q, In (Parse q) [Fetch page; Parse page] -> f base q <> None).
      { intros q [H | [H | []]]; [discriminate|]. injection H as <-. congruence. }
      destruct (Stage1.extract_profile_urls urljoin soup) as [|u urls].
      * destruct (Stage1.empty_pages s + 1 >=? 3);
          [apply (Hstop [Fetch page; Parse page])
          | apply (Hgo [Fetch page; Parse page])];
          solve [reflexivity | exact HP].
      * apply (Hgo [Fetch page; Parse page]); solve [reflexivity | exact HP].
    + assert (HP : forall q, In (Parse q) [Fetch page] -> f base q <> None).
      { intros q [H | []]. discriminate. }
      destruct (Stage1.empty_pages s + 1 >=? 3);
        [apply (Hstop [Fetch page]) | apply (Hgo [Fetch page])];
        solve [reflexivity | exact HP].
Qed.

End FetchOrder.

(** C9.  A failed fetch counts as an empty page and is not parsed, and
    no page is asked for twice.
    ver4: after a failed fetch [scrape_listing_page] returns 0 with
    store and file untouched and without the parsing call; a pass over
    a failed fetch leaves the counters, the [break] decision, the store
    and the file exactly as a pass over a page that counts zero does;
    and whatever number of passes [run] makes, the pages it fetches are
    [start_page], [start_page + 1], ... in this order, each once, and
    only fetched pages are parsed.
    stage 1: in the page loop of a stream a failed fetch and a page
    without profile URLs lead to the same counter and the same collected
    rows, and the pages fetched are 1, 2, ... in this order, each once,
    only fetched pages being parsed. *)
Theorem C9_failed_fetch_counts_as_empty_page (w : web) :
  (forall p s, w p = None ->
     Ver4.scrape_listing_page w p s =
     (Ver4.mkScraper (Ver4.colleges_data s) (Ver4.disk s) (Ver4.log s ++ [Fetch p]), 0)) /\
  (forall w' s l, w (Ver4.page l) = None ->
     snd (Ver4.scrape_listing_page w' (Ver4.page l) s) = 0 ->
     fst (fst (Ver4.pass w s l)) = fst (fst (Ver4.pass w' s l)) /\
     snd (Ver4.pass w s l) = snd (Ver4.pass w' s l) /\
     Ver4.colleges_data (snd (fst (Ver4.pass w s l))) =
       Ver4.colleges_data (snd (fst (Ver4.pass w' s l))) /\
     Ver4.disk (snd (fst (Ver4.pass w s l))) =
       Ver4.disk (snd (fst (Ver4.pass w' s l)))) /\
  (forall fuel start_page s,
     exists evs,
       Ver4.log (snd (fst (Ver4.run fuel w start_page s))) = Ver4.log s ++ evs /\
       fetch_order_law w start_page evs) /\
  (forall urljoin f f' name base page rest st soup,
     f base page = None -> f' base page = Some soup ->
     Stage1.extract_profile_urls urljoin soup = [] ->
     (forall q, In q rest -> f base q = f' base q) ->
     Stage1.collected (Stage1.stream_pages urljoin f name base (page :: rest) st) =
     Stage1.collected (Stage1.stream_pages urljoin f' name base (page :: rest) st) /\
     Stage1.empty_pages (Stage1.stream_pages urljoin f name base (page :: rest) st) =
     Stage1.empty_pages (Stage1.stream_pages urljoin f' name base (page :: rest) st)) /\
  (forall urljoin f name base collected0,
     fetch_order_law (f base) 1
       (Stage1.log (Stage1.collect_stream urljoin f name base collected0))).
Proof.
  assert (V1 : forall p s, w p = None ->
     Ver4.scrape_listing_page w p s =
     (Ver4.mkScraper (Ver4.colleges_data s) (Ver4.disk s) (Ver4.log s ++ [Fetch p]), 0)).
  { intros p s H. rewrite ver4_scrape_listing_page_eq, H. reflexivity. }
  split; [exact V1|]. split; [|split; [|split]].
  - intros w' s l Hw Hz. unfold Ver4.pass. rewrite (V1 _ s Hw).
    rewrite ver4_scrape_listing_page_eq in Hz |- *.
    destruct (w' (Ver4.page l)) as [soup|].
    + cbn zeta in Hz |- *. cbn [snd] in Hz. apply len_zero_nil in Hz.
      rewrite Hz. unfold Py.len. simpl length. cbn [Z.of_nat Z.eqb].
      destruct (Ver4.empty_pages l + 1 >=? 3);
        cbn [fst snd Ver4.colleges_data Ver4.disk]; rewrite app_nil_r; auto.
    + cbn [Z.eqb]. destruct (Ver4.empty_pages l + 1 >=? 3);
        cbn [fst snd Ver4.colleges_data Ver4.disk]; auto.
  - intros fuel start_page s. unfold Ver4.run.
    destruct (run_loop_order w fuel s (Ver4.mkLoop 0 0 start_page))
      as (n & evs & H1 & H2 & H3 & _).
    exists evs. split; [exact H1|]. cbn [Ver4.page] in H2.
    split; [eauto|]. split; [rewrite H2; apply range_increasing | exact H3].
  - intros urljoin f f' name base page rest st soup Hf Hf' Hu Hrest.
    cbn [Stage1.stream_pages]. rewrite Hf, Hf', Hu.
    destruct (Stage1.empty_pages st + 1 >=? 3).
    + cbn [Stage1.collected Stage1.empty_pages]. auto.
    + apply stream_pages_ext; auto.
  - intros urljoin f name base collected0. unfold Stage1.collect_stream.
    destruct (stream_pages_order urljoin f name base
                (Py.range 1 (Stage1.MAX_PAGES_PER_STREAM + 1))
                (Stage1.mkState collected0 0 [])) as (k & evs & H1 & H2 & H3).
    cbn [Stage1.log app] in H1. rewrite H1.
    destruct (firstn_range k 1 (Stage1.MAX_PAGES_PER_STREAM + 1)) as [n Hn].
    rewrite Hn in H2.
    split; [eauto|]. split; [rewrite H2; apply range_increasing | exact H3].
Qed.

(** Page 1 lists A, the fetch of page 2 fails, pages 3 and 4 bring
    nothing new: four fetches, pages 1 to 4, page 2 not parsed. *)
Lemma C9_failed_fetch_witness :
  let w := site [Some (Sample.listing [Sample.A]); None;
                 Some (Sample.listing [Sample.A]); Some Sample.no_table] in
  let s0 := Ver4.mkScraper [] Ver4.Missing [] in
  w 2 = None /\
  Ver4.scrape_listing_page w 2 s0 = (Ver4.mkScraper [] Ver4.Missing [Fetch 2], 0) /\
  (exists evs, Ver4.log (snd (fst (Ver4.run 10 w 1 s0))) = [] ++ evs /\
               fetch_order_law w 1 evs) /\
  Ver4.log (snd (fst (Ver4.run 10 w 1 s0))) =
    [Fetch 1; Parse 1; Fetch 2; Fetch 3; Parse 3; Fetch 4; Parse 4] /\
  fst (fst (Ver4.run 10 w 1 s0)) = true.
Proof.
  intros w s0.
  destruct (C9_failed_fetch_counts_as_empty_page w) as (V1 & _ & V3 & _).
  assert (Hw : w 2 = None) by reflexivity.
  split; [exact Hw|]. split; [exact (V1 2 s0 Hw)|].
  split; [exact (V3 10%nat 1 s0)|]. split; reflexivity.
Defined.

(* ================================================================== *)
(** ** Whitespace in the parsed fields *)
(* ================================================================== *)

Section StringFacts.

















End StringFacts.

Section ParsedFields.
Import Bs4.

Lemma len_two_or_more {A} (a b : A) (l : list A) : (Py.len (a :: b :: l) <? 2) = false.
Proof. apply Z.ltb_ge. unfold Py.len. simpl length. lia. Qed.

Lemma ver3_parsed_key (tr : tag) :
  College_Name (Ver3.parsed tr) = row_name tr /\
  CD_Rank (Ver3.parsed tr) = row_rank tr.
Proof.
  unfold Ver3.parsed, Ver3.parse_college_row, row_name, row_rank.
  destruct (find_all_children "td" tr) as [|td0 [|info_td tds]];
    [split; reflexivity | split; reflexivity |].
  rewrite len_two_or_more.
  destruct (select_one Sel.location info_td); cbn zeta beta iota;
    (destruct (select_one Sel.col_fees tr) as [fees_td|];
     [destruct (ver3_fees_text_returns fees_td) as [f ->]|];
     split; reflexivity).
Qed.

Lemma scraping_parsed_key (tr : tag) :
  College_Name (Scraping.parse_college_row tr) = row_name tr /\
  CD_Rank (Scraping.parse_college_row tr) = row_rank tr.
Proof.
  unfold Scraping.parse_college_row, row_name, row_rank.
  destruct (find_all_children "td" tr) as [|td0 [|info_td tds]];
    [split; reflexivity | split; reflexivity |].
  rewrite len_two_or_more.
  destruct (select_one Sel.location info_td); split; reflexivity.
Qed.

Lemma scrapingtest_parsed_key (tr : tag) :
  College_Name (ScrapingTest.parse_college_row tr) = row_name tr /\
  CD_Rank (ScrapingTest.parse_college_row tr) = row_rank tr.
Proof.
  unfold ScrapingTest.parse_college_row, row_name, row_rank.
  destruct (find_all_children "td" tr) as [|td0 [|info_td tds]];
    [split; reflexivity | split; reflexivity |].
  rewrite len_two_or_more.
  destruct (select_one Sel.location info_td); split; reflexivity.
Qed.


Lemma same_names_accepted (f g : tag -> college) (rows : list tag) :
  (forall tr, College_Name (f tr) = College_Name (g tr)) ->
  names (filter named (map f rows)) = names (filter named (map g rows)).
Proof.
  intros H. unfold names in *.
  induction rows as [|tr rows IH]; [reflexivity|].
  cbn [map filter].
  assert (E : named (f tr) = named (g tr)) by (unfold named; now rewrite (H tr)).
  rewrite E. destruct (named (g tr)); cbn [map]; [rewrite (H tr)|]; now rewrite IH.
Qed.

End ParsedFields.


(** X3.  The versions of the parser agree on the key: for every row,
    ver3 (and ver4), scraping.py and scarpingtest.py return the same
    "College Name" and the same "CD Rank"; so for the same fetched page
    the three [scrape_listing_page] of ver3, scraping.py and
    scarpingtest.py return the same count and add entities of the same
    names in the same order. *)
Theorem X3_parsers_agree_on_key (w : web) (p : Z) (d1 d2 d3 : list college) :
  (forall tr,
     College_Name (Ver3.parsed tr) = College_Name (Scraping.parse_college_row tr) /\
     College_Name (Ver3.parsed tr) = College_Name (ScrapingTest.parse_college_row tr) /\
     CD_Rank (Ver3.parsed tr) = CD_Rank (Scraping.parse_college_row tr) /\
     CD_Rank (Ver3.parsed tr) = CD_Rank (ScrapingTest.parse_college_row tr)) /\
  snd (Ver3.scrape_listing_page w p d1) = snd (Scraping.scrape_listing_page w p d2) /\
  snd (Scraping.scrape_listing_page w p d2) = snd (ScrapingTest.scrape_listing_page w p d3) /\
  (exists a1 a2 a3,
     fst (Ver3.scrape_listing_page w p d1) = d1 ++ a1 /\
     fst (Scraping.scrape_listing_page w p d2) = d2 ++ a2 /\
     fst (ScrapingTest.scrape_listing_page w p d3) = d3 ++ a3 /\
     names a1 = names a2 /\ names a2 = names a3).
Proof.
  assert (K : forall tr,
     College_Name (Ver3.parsed tr) = College_Name (Scraping.parse_college_row tr) /\
     College_Name (Ver3.parsed tr) = College_Name (ScrapingTest.parse_college_row tr) /\
     CD_Rank (Ver3.parsed tr) = CD_Rank (Scraping.parse_college_row tr) /\
     CD_Rank (Ver3.parsed tr) = CD_Rank (ScrapingTest.parse_college_row tr)).
  { intros tr. destruct (ver3_parsed_key tr) as [-> ->].
    destruct (scraping_parsed_key tr) as [-> ->].
    destruct (scrapingtest_parsed_key tr) as [-> ->]. auto. }
  split; [exact K|].
  assert (ET : ScrapingTest.scrape_listing_page w p d3 =
     (d3 ++ filter named (page_candidates ScrapingTest.parse_college_row w p),
      Py.len (filter named (page_candidates ScrapingTest.parse_college_row w p)))).
  { unfold ScrapingTest.scrape_listing_page, page_candidates.
    destruct (w p) as [soup|]; [|simpl; now rewrite app_nil_r].
    destruct (find_college_rows soup) as [|tr rows] eqn:E.
    - simpl. now rewrite app_nil_r.
    - change ScrapingTest.keep_named with Ver3.keep_named. apply fold_keep_named. }
  rewrite ver3_scrape_listing_page_eq, scraping_scrape_listing_page_eq, ET.
  cbn [fst snd].
  assert (N12 : names (filter named (page_candidates Ver3.parsed w p)) =
                names (filter named (page_candidates Scraping.parse_college_row w p))).
  { unfold page_candidates. destruct (w p); [|reflexivity].
    apply same_names_accepted. intros tr. apply K. }
  assert (N23 : names (filter named (page_candidates Scraping.parse_college_row w p)) =
                names (filter named (page_candidates ScrapingTest.parse_college_row w p))).
  { unfold page_candidates. destruct (w p); [|reflexivity].
    apply same_names_accepted. intros tr.
    destruct (K tr) as (E1 & E2 & _). congruence. }
  assert (L : forall l1 l2 : list college, names l1 = names l2 -> Py.len l1 = Py.len l2).
  { intros l1 l2 E. unfold Py.len. f_equal.
    rewrite <- (length_map College_Name l1), <- (length_map College_Name l2).
    unfold names in E. now rewrite E. }
  split; [apply L, N12|]. split; [apply L, N23|].
  eexists _, _, _. repeat split; assumption.
Qed.


(* ================================================================== *)
(** ** Bounds of the page loop of ver3 and scraping.py *)
(* ================================================================== *)

Section PageBounds.

Lemma range_length (a b : Z) : length (Py.range a b) = Z.to_nat (b - a).
Proof. unfold Py.range. now rewrite length_map, length_seq. Qed.

Lemma range_nil (a b : Z) : b <= a -> Py.range a b = [].
Proof. intros H. unfold Py.range. now replace (Z.to_nat (b - a)) with 0%nat by lia. Qed.

Lemma finished_within (scrape : Z -> list college -> list college * Z)
    (expected : Z) (data0 : list college) (a b : Z) (r : stop_reason * progress) :
  finished scrape expected data0 (Py.range a b) (fst r) (snd r) ->
  (exists rest, Py.range a b = pages_of (snd r) ++ rest /\
                (fst r = PAGE_LIMIT -> rest = [])) /\
  Py.len (iterations (snd r)) <= Z.max 0 (b - a).
Proof.
  intros [G P S T E TR]. split; [exact P|].
  destruct P as (rest & HP & _).
  assert (L : length (Py.range a b) = (length (pages_of (snd r)) + length rest)%nat)
    by (rewrite HP; apply length_app).
  rewrite range_length in L. unfold pages_of in L. rewrite length_map in L.
  unfold Py.len. lia.
Qed.

(** The first pass, when the target is not positive. *)
Lemma first_pass_reaches_target
    (scrape : Z -> list college -> list college * Z) (expected : Z)
    (page : Z) (rest : list Z) (data : list college) :
  (forall p d, 0 <= snd (scrape p d)) -> expected <= 0 ->
  fst (for_pages scrape expected (page :: rest) (start_of_run data)) = TARGET_REACHED /\
  pages_of (snd (for_pages scrape expected (page :: rest) (start_of_run data))) = [page].
Proof.
  intros Hpos Hexp. rewrite for_pages_unfold.
  assert (Hv : verdict scrape expected page (start_of_run data) = Some TARGET_REACHED).
  { unfold verdict, step. cbn [empty_pages total_scraped start_of_run colleges_data].
    specialize (Hpos page data).
    destruct (snd (scrape page data) =? 0) eqn:E; cbn [andb].
    - replace (0 + 1 >=? 3) with false by reflexivity.
      destruct (0 >=? expected) eqn:E2; [reflexivity|].
      rewrite Z.geb_leb in E2. apply Z.leb_gt in E2. lia.
    - destruct (0 + snd (scrape page data) >=? expected) eqn:E2; [reflexivity|].
      rewrite Z.geb_leb in E2. apply Z.leb_gt in E2. lia. }
  rewrite Hv. split; reflexivity.
Qed.

Lemma len_nonneg {A} (l : list A) : 0 <= Py.len l.
Proof. unfold Py.len. lia. Qed.

End PageBounds.

(** X4.  [run] of ver3 and of scraping.py never asks for a page outside
    its range: the pages scraped are an initial part of
    [range(start_page, start_page + max_pages)] (of [range(1, max_pages +
    1)] in scraping.py), in order, so at most [max_pages] passes are made;
    when the loop ends by exhausting the range every page of the range
    was scraped; and with [max_pages <= 0] nothing is fetched and
    [colleges_data] is returned as it was. *)
Theorem X4_run_stays_within_pages
    (w : web) (start_page max_pages expected_total : Z) (data : list college) :
  ((exists rest,
      Py.range start_page (start_page + max_pages) =
        pages_of (snd (Ver3.run w start_page max_pages expected_total data)) ++ rest /\
      (fst (Ver3.run w start_page max_pages expected_total data) = PAGE_LIMIT ->
       rest = [])) /\
   Py.len (iterations (snd (Ver3.run w start_page max_pages expected_total data)))
     <= Z.max 0 max_pages /\
   (max_pages <= 0 ->
    Ver3.run w start_page max_pages expected_total data =
      (PAGE_LIMIT, start_of_run data))) /\
  ((exists rest,
      Py.range 1 (max_pages + 1) =
        pages_of (snd (Scraping.run w max_pages expected_total data)) ++ rest /\
      (fst (Scraping.run w max_pages expected_total data) = PAGE_LIMIT -> rest = [])) /\
   Py.len (iterations (snd (Scraping.run w max_pages expected_total data)))
     <= Z.max 0 max_pages /\
   (max_pages <= 0 ->
    Scraping.run w max_pages expected_total data = (PAGE_LIMIT, start_of_run data))).
Proof.
  split.
  - destruct (finished_within _ _ _ _ _ _
                (ver3_run_finished w start_page max_pages expected_total data))
      as [H1 H2].
    split; [exact H1|]. split.
    + replace (start_page + max_pages - start_page) with max_pages in H2 by lia.
      exact H2.
    + intros H. unfold Ver3.run. rewrite range_nil by lia. reflexivity.
  - destruct (finished_within _ _ _ _ _ _
                (scraping_run_finished w max_pages expected_total data))
      as [H1 H2].
    split; [exact H1|]. split.
    + replace (max_pages + 1 - 1) with max_pages in H2 by lia. exact H2.
    + intros H. unfold Scraping.run. rewrite range_nil by lia. reflexivity.
Qed.

Lemma X4_run_stays_within_pages_witness :
  let w := site [Some (Sample.listing [Sample.A])] in
  0 <= 0 /\
  Ver3.run w 1 0 3000 [] = (PAGE_LIMIT, start_of_run []) /\
  Scraping.run w 0 20558 [] = (PAGE_LIMIT, start_of_run []).
Proof.
  intros w. assert (H : 0 <= 0) by lia.
  destruct (X4_run_stays_within_pages w 1 0 3000 []) as ((_ & _ & H3) & _).
  destruct (X4_run_stays_within_pages w 1 0 20558 []) as (_ & (_ & _ & HS)).
  split; [exact H|]. split; [exact (H3 H) | exact (HS H)].
Defined.

(** X5.  A target that is not positive ends the run after its first
    page: with [expected_total <= 0] and at least one page allowed, [run]
    (ver3 and scraping.py) scrapes exactly the first page of its range,
    whatever that page holds, and stops for the target. *)
Theorem X5_nonpositive_target_stops_after_first_page
    (w : web) (start_page max_pages expected_total : Z) (data : list college)
    (Hexp : expected_total <= 0) (Hmax : 1 <= max_pages) :
  (fst (Ver3.run w start_page max_pages expected_total data) = TARGET_REACHED /\
   pages_of (snd (Ver3.run w start_page max_pages expected_total data)) = [start_page]) /\
  (fst (Scraping.run w max_pages expected_total data) = TARGET_REACHED /\
   pages_of (snd (Scraping.run w max_pages expected_total data)) = [1]).
Proof.
  split.
  - unfold Ver3.run. rewrite range_cons by lia.
    apply first_pass_reaches_target; [|exact Hexp].
    intros p d. rewrite ver3_scrape_listing_page_eq. apply len_nonneg.
  - unfold Scraping.run. rewrite range_cons by lia.
    apply first_pass_reaches_target; [|exact Hexp].
    intros p d. rewrite scraping_scrape_listing_page_eq. apply len_nonneg.
Qed.

Lemma X5_nonpositive_target_witness :
  let w := site [None; Some (Sample.listing [Sample.A])] in
  0 <= 0 /\ 1 <= 3000 /\
  fst (Scraping.run w 3000 0 []) = TARGET_REACHED /\
  pages_of (snd (Scraping.run w 3000 0 [])) = [1].
Proof.
  intros w. assert (H0 : 0 <= 0) by lia. assert (H1 : 1 <= 3000) by lia.
  destruct (X5_nonpositive_target_stops_after_first_page w 1 3000 0 [] H0 H1)
    as (_ & HS1 & HS2).
  split; [exact H0|]. split; [exact H1|]. split; [exact HS1 | exact HS2].
Defined.

(* ================================================================== *)
(** ** Further properties of ver4 *)
(* ================================================================== *)

Section Ver4More.

Lemma is_new_not_present (data : list college) (c : college) :
  is_new data c = true -> ~ In (College_Name c) (names data).
Proof.
  unfold is_new. intros H. apply andb_prop in H as [_ H].
  apply negb_true_iff in H. intros Hin.
  apply name_present_iff in Hin. congruence.
Qed.

Lemma is_new_filter_named (data : list college) (l : list college) :
  filter (is_new data) l =
  filter (fun c => negb (Ver4.name_present (College_Name c) data)) (filter named l).
Proof.
  induction l as [|c l IH]; [reflexivity|]. simpl. unfold is_new at 1.
  destruct (named c); simpl; [|exact IH].
  destruct (Ver4.name_present (College_Name c) data); simpl; now rewrite IH.
Qed.

Lemma NoDup_names_filter (g : college -> bool) (l : list college) :
  NoDup (names l) -> NoDup (names (filter g l)).
Proof.
  unfold names. induction l as [|c l IH]; intros H; [constructor|].
  simpl in H. inversion H as [|? ? Hn Hl]; subst. simpl.
  destruct (g c); [|auto]. simpl. constructor; [|auto].
  intros Hin. apply Hn. apply in_map_iff in Hin as (x & Ex & Hx).
  apply filter_In in Hx as [Hx _]. apply in_map_iff. eauto.
Qed.

Lemma page_keeps_names_distinct (w : web) (p : Z) (s : Ver4.scraper) :
  NoDup (names (filter named (page_candidates Ver4.parsed w p))) ->
  NoDup (names (Ver4.colleges_data s)) ->
  NoDup (names (Ver4.colleges_data (fst (Ver4.scrape_listing_page w p s)))).
Proof.
  intros Hp Hs. rewrite ver4_scrape_listing_page_eq.
  destruct (w p) as [soup|]; cbn [fst Ver4.colleges_data]; [|exact Hs].
  unfold names. rewrite map_app. apply NoDup_app; [exact Hs | |].
  - rewrite is_new_filter_named. now apply NoDup_names_filter.
  - intros nm Hin Hnew. apply in_map_iff in Hnew as (c & <- & Hc).
    apply filter_In in Hc as [_ Hc]. now apply (is_new_not_present _ _ Hc).
Qed.

Lemma pass_keeps_names_distinct (w : web) (s : Ver4.scraper) (l : Ver4.loop) :
  (forall p, NoDup (names (filter named (page_candidates Ver4.parsed w p)))) ->
  NoDup (names (Ver4.colleges_data s)) ->
  NoDup (names (Ver4.colleges_data (snd (fst (Ver4.pass w s l))))).
Proof.
  intros Hp Hs. unfold Ver4.pass.
  pose proof (page_keeps_names_distinct w (Ver4.page l) s (Hp _) Hs) as H.
  destruct (Ver4.scrape_listing_page w (Ver4.page l) s) as [s' count].
  cbn [fst] in H.
  destruct (count =? 0); [destruct (Ver4.empty_pages l + 1 >=? 3)|]; exact H.
Qed.

Lemma page_appends (w : web) (p : Z) (s : Ver4.scraper) :
  exists new,
    Ver4.colleges_data (fst (Ver4.scrape_listing_page w p s)) =
      Ver4.colleges_data s ++ new /\
    snd (Ver4.scrape_listing_page w p s) = Py.len new /\
    Forall (fun c => College_Name c <> "") new.
Proof.
  rewrite ver4_scrape_listing_page_eq.
  destruct (w p) as [soup|]; cbn [fst snd Ver4.colleges_data].
  - eexists. split; [reflexivity|]. split; [reflexivity|].
    apply Forall_filter_named, is_new_named.
  - exists []. rewrite app_nil_r. repeat split. constructor.
Qed.

(** The counters and the store after one pass. *)
Lemma pass_counters (w : web) (s : Ver4.scraper) (l : Ver4.loop) :
  0 <= Ver4.empty_pages l < 3 ->
  (exists new,
     Ver4.colleges_data (snd (fst (Ver4.pass w s l))) = Ver4.colleges_data s ++ new /\
     Ver4.total_scraped (snd (Ver4.pass w s l)) = Ver4.total_scraped l + Py.len new /\
     Forall (fun c => College_Name c <> "") new) /\
  (fst (fst (Ver4.pass w s l)) = true -> Ver4.empty_pages (snd (Ver4.pass w s l)) = 3) /\
  (fst (fst (Ver4.pass w s l)) = false ->
   0 <= Ver4.empty_pages (snd (Ver4.pass w s l)) < 3).
Proof.
  intros He. unfold Ver4.pass.
  destruct (page_appends w (Ver4.page l) s) as (new & Hd & Hn & Hf).
  destruct (Ver4.scrape_listing_page w (Ver4.page l) s) as [s' count].
  cbn [fst snd] in Hd, Hn.
  destruct (count =? 0) eqn:E0.
  - apply Z.eqb_eq in E0.
    destruct (Ver4.empty_pages l + 1 >=? 3) eqn:E3;
      rewrite Z.geb_leb in E3; [apply Z.leb_le in E3 | apply Z.leb_gt in E3];
      cbn [fst snd Ver4.total_scraped Ver4.empty_pages];
      (split; [exists new; split; [exact Hd | split; [lia | exact Hf]]|]);
      split; intros; try discriminate; lia.
  - cbn [fst snd Ver4.total_scraped Ver4.empty_pages].
    split; [exists new; split; [exact Hd | split; [lia | exact Hf]]|].
    split; intros; try discriminate; lia.
Qed.

(** The counters and the store along the passes of [run]. *)
Lemma run_loop_counters (w : web) (fuel : nat) :
  forall s l, 0 <= Ver4.empty_pages l < 3 ->
    (exists added,
       Ver4.colleges_data (snd (fst (Ver4.run_loop fuel w s l))) =
         Ver4.colleges_data s ++ added /\
       Ver4.total_scraped (snd (Ver4.run_loop fuel w s l)) =
         Ver4.total_scraped l + Py.len added /\
       Forall (fun c => College_Name c <> "") added) /\
    (fst (fst (Ver4.run_loop fuel w s l)) = true ->
     Ver4.empty_pages (snd (Ver4.run_loop fuel w s l)) = 3) /\
    (fst (fst (Ver4.run_loop fuel w s l)) = false ->
     0 <= Ver4.empty_pages (snd (Ver4.run_loop fuel w s l)) < 3).
Proof.
  induction fuel as [|fuel IH]; intros s l He.
  - cbn [Ver4.run_loop fst snd]. split; [|split; [discriminate | auto]].
    exists []. rewrite app_nil_r.
    split; [reflexivity|]. split; [unfold Py.len; simpl; lia | constructor].
  - cbn [Ver4.run_loop].
    destruct (pass_counters w s l He) as ((new & P1 & P2 & P5) & P3 & P4).
    destruct (Ver4.pass w s l) as [[stop s'] l']. cbn [fst snd] in P1, P2, P3, P4.
    destruct stop.
    + cbn [fst snd]. split; [eauto|]. split; [exact P3 | discriminate].
    + destruct (IH s' l' (P4 eq_refl)) as ((added & A1 & A2 & A3) & B & C).
      split; [|split; assumption].
      exists (new ++ added). rewrite A1, A2, P1, P2, <- app_assoc.
      split; [reflexivity|].
      split; [unfold Py.len; rewrite length_app; lia | now apply Forall_app].
Qed.

End Ver4More.

Section Ver4Termination.

Variable w : web.
Variable N : Z.
Hypothesis beyond : forall p, N <= p -> w p = None.

Lemma pass_beyond (s : Ver4.scraper) (l : Ver4.loop) :
  N <= Ver4.page l ->
  Ver4.pass w s l =
  (if Ver4.empty_pages l + 1 >=? 3
   then (true,
         Ver4.mkScraper (Ver4.colleges_data s) (Ver4.disk s)
           (Ver4.log s ++ [Fetch (Ver4.page l)]),
         Ver4.mkLoop (Ver4.total_scraped l) (Ver4.empty_pages l + 1) (Ver4.page l))
   else (false,
         Ver4.mkScraper (Ver4.colleges_data s) (Ver4.disk s)
           (Ver4.log s ++ [Fetch (Ver4.page l)]),
         Ver4.mkLoop (Ver4.total_scraped l) (Ver4.empty_pages l + 1)
           (Ver4.page l + 1))).
Proof.
  intros H. unfold Ver4.pass.
  rewrite ver4_scrape_listing_page_eq, (beyond _ H). reflexivity.
Qed.

Lemma run_loop_stops_beyond (n : nat) :
  forall s l, N <= Ver4.page l -> 0 <= Ver4.empty_pages l < 3 ->
    3 - Ver4.empty_pages l <= Z.of_nat n ->
    fst (fst (Ver4.run_loop n w s l)) = true.
Proof.
  induction n as [|n IH]; intros s l Hp He Hn; [lia|].
  cbn [Ver4.run_loop]. rewrite (pass_beyond s l Hp).
  destruct (Ver4.empty_pages l + 1 >=? 3) eqn:E3; [reflexivity|].
  rewrite Z.geb_leb in E3. apply Z.leb_gt in E3.
  apply IH; cbn [Ver4.page Ver4.empty_pages]; lia.
Qed.

Lemma run_loop_stops (k : nat) :
  forall s l, 0 <= Ver4.empty_pages l < 3 -> N - Ver4.page l <= Z.of_nat k ->
    fst (fst (Ver4.run_loop (k + 3) w s l)) = true.
Proof.
  induction k as [|k IH]; intros s l He Hk.
  - apply run_loop_stops_beyond; [lia | exact He | lia].
  - destruct (Z_le_gt_dec N (Ver4.page l)) as [Hp | Hp].
    + apply run_loop_stops_beyond; [exact Hp | exact He | lia].
    + cbn [Nat.add Ver4.run_loop].
      destruct (pass_counters w s l He) as (_ & _ & P4).
      destruct (pass_log_page w s l) as (_ & Hpage).
      destruct (Ver4.pass w s l) as [[stop s'] l']. cbn [fst snd] in P4, Hpage.
      destruct stop; [reflexivity|].
      apply IH; [exact (P4 eq_refl) | lia].
Qed.

End Ver4Termination.

Section Ver4Fuel.

Lemma run_loop_more_fuel (w : web) (n : nat) :
  forall s l, fst (fst (Ver4.run_loop n w s l)) = true ->
    forall k, Ver4.run_loop (n + k) w s l = Ver4.run_loop n w s l.
Proof.
  induction n as [|n IH]; intros s l H k; [discriminate|].
  cbn [Nat.add Ver4.run_loop] in H |- *.
  destruct (Ver4.pass w s l) as [[stop s'] l'].
  destruct stop; [reflexivity | now apply IH].
Qed.

Lemma run_loop_names_distinct (w : web) (fuel : nat) :
  (forall p, NoDup (names (filter named (page_candidates Ver4.parsed w p)))) ->
  forall s l, NoDup (names (Ver4.colleges_data s)) ->
    NoDup (names (Ver4.colleges_data (snd (fst (Ver4.run_loop fuel w s l))))).
Proof.
  intros Hp. induction fuel as [|fuel IH]; intros s l Hs; [exact Hs|].
  cbn [Ver4.run_loop].
  pose proof (pass_keeps_names_distinct w s l Hp Hs) as H.
  destruct (Ver4.pass w s l) as [[stop s'] l']. cbn [fst snd] in H.
  destruct stop; [exact H | now apply IH].
Qed.

Lemma site_beyond (answers : list (option Bs4.tag)) (p : Z) :
  Z.of_nat (length answers) + 1 <= p -> site answers p = None.
Proof.
  intros H. unfold site. destruct (p <? 1); [reflexivity|].
  apply nth_overflow. lia.
Qed.

End Ver4Fuel.

(** X6.  In ver4, scraping a page again right after it was scraped is a
    no-op: if the page comes back the same, the second call returns 0
    and leaves [colleges_data] and the file as the first call left them. *)
Theorem X6_scraping_a_page_again_adds_nothing (w : web) (p : Z) (s : Ver4.scraper) :
  let s1 := fst (Ver4.scrape_listing_page w p s) in
  snd (Ver4.scrape_listing_page w p s1) = 0 /\
  Ver4.colleges_data (fst (Ver4.scrape_listing_page w p s1)) = Ver4.colleges_data s1 /\
  Ver4.disk (fst (Ver4.scrape_listing_page w p s1)) = Ver4.disk s1.
Proof.
  cbn zeta. rewrite (ver4_scrape_listing_page_eq w p s).
  destruct (w p) as [soup|] eqn:Ew; cbn [fst].
  - rewrite ver4_scrape_listing_page_eq, Ew. cbn [Ver4.colleges_data Ver4.disk Ver4.log].
    rewrite (filter_none (is_new (Ver4.colleges_data s ++ _)) _)
      by (intros x Hx; now apply merged_not_new).
    cbn [fst snd Ver4.colleges_data Ver4.disk]. rewrite app_nil_r. auto.
  - rewrite ver4_scrape_listing_page_eq, Ew. auto.
Qed.

(** X7.  When no page lists two named rows of the same name, the names
    in [colleges_data] of ver4 stay pairwise distinct along the whole
    run, whatever the pages repeat from one another. *)
Theorem X7_names_stay_distinct
    (w : web) (fuel : nat) (start_page : Z) (s : Ver4.scraper)
    (Hpages : forall p, NoDup (names (filter named (page_candidates Ver4.parsed w p))))
    (Hs : NoDup (names (Ver4.colleges_data s))) :
  NoDup (names (Ver4.colleges_data (snd (fst (Ver4.run fuel w start_page s))))).
Proof. unfold Ver4.run. now apply run_loop_names_distinct. Qed.

Lemma X7_names_stay_distinct_witness :
  let w := site [Some (Sample.listing [Sample.A; Sample.B]);
                 Some (Sample.listing [Sample.B; Sample.C])] in
  let s := Ver4.mkScraper [] Ver4.Missing [] in
  (forall p, NoDup (names (filter named (page_candidates Ver4.parsed w p)))) /\
  NoDup (names (Ver4.colleges_data s)) /\
  NoDup (names (Ver4.colleges_data (snd (fst (Ver4.run 5 w 1 s))))) /\
  names (Ver4.colleges_data (snd (fst (Ver4.run 5 w 1 s)))) =
    ["IIT Madras"; "IIT Delhi"; "IIT Bombay"].
Proof.
  intros w s.
  assert (Hp : forall p, NoDup (names (filter named (page_candidates Ver4.parsed w p)))).
  { intros p. destruct (Z_le_gt_dec 3 p) as [H | H].
    - unfold page_candidates, w. rewrite (site_beyond _ p) by (simpl; lia). constructor.
    - destruct (Z_le_gt_dec p 0) as [H0 | H0].
      + unfold page_candidates, w, site.
        replace (p <? 1) with true by (symmetry; apply Z.ltb_lt; lia). constructor.
      + assert (Hc : p = 1 \/ p = 2) by lia.
        destruct Hc as [-> | ->]; vm_compute;
          repeat (constructor; [simpl; intuition discriminate|]); constructor. }
  assert (Hs : NoDup (names (Ver4.colleges_data s))) by constructor.
  split; [exact Hp|]. split; [exact Hs|].
  split; [exact (X7_names_stay_distinct w 5 1 s Hp Hs) | reflexivity].
Defined.

(** X8.  ver4 compares a candidate with the stored entities only, not
    with the other rows of its page: a named candidate that is not yet
    stored and occurs twice on one page is accepted twice, so that its
    name then occurs twice in [colleges_data]. *)
Theorem X8_same_name_twice_on_a_page
    (data : list college) (d : Ver4.file) (c : college)
    (Hn : named c = true)
    (Hp : Ver4.name_present (College_Name c) data = false) :
  Ver4.merge [c; c] data d =
    (data ++ [c; c], Ver4.Workbook (data ++ [c; c]), 2) /\
  ~ NoDup (names (data ++ [c; c])).
Proof.
  split.
  - rewrite merge_eq. simpl. unfold is_new. rewrite Hn, Hp. reflexivity.
  - unfold names. rewrite map_app. intros H. apply NoDup_app_remove_l in H.
    simpl in H. inversion H as [|? ? Hin _]; subst. apply Hin. now left.
Qed.

Lemma X8_same_name_twice_witness :
  let c := mkCollege "#1" "IIT Madras" "Chennai" "Tamil Nadu" "" "" "" "" in
  named c = true /\
  Ver4.name_present (College_Name c) [] = false /\
  Ver4.merge [c; c] [] Ver4.Missing = ([c; c], Ver4.Workbook [c; c], 2).
Proof.
  intros c.
  assert (Hn : named c = true) by reflexivity.
  assert (Hp : Ver4.name_present (College_Name c) [] = false) by reflexivity.
  destruct (X8_same_name_twice_on_a_page [] Ver4.Missing c Hn Hp) as [H _].
  split; [exact Hn|]. split; [exact Hp | exact H].
Defined.

(** X9.  The [while True] loop of ver4 ends on every site that has an
    end: if every request from page [N] on fails, [run] leaves the loop
    after at most [N - start_page + 3] passes (3 when [start_page] is
    already beyond), and its result does not depend on how many more
    passes it is allowed. *)
Theorem X9_run_ends_on_a_finite_site
    (w : web) (N start_page : Z) (s : Ver4.scraper)
    (Hend : forall p, N <= p -> w p = None) :
  exists fuel : nat,
    (fuel <= Z.to_nat (N - start_page) + 3)%nat /\
    fst (fst (Ver4.run fuel w start_page s)) = true /\
    forall k, Ver4.run (fuel + k) w start_page s = Ver4.run fuel w start_page s.
Proof.
  exists (Z.to_nat (N - start_page) + 3)%nat. split; [lia|].
  assert (H : fst (fst (Ver4.run (Z.to_nat (N - start_page) + 3) w start_page s)) = true).
  { unfold Ver4.run. apply (run_loop_stops w N Hend);
      cbn [Ver4.empty_pages Ver4.page]; lia. }
  split; [exact H|]. intros k. unfold Ver4.run. now apply run_loop_more_fuel.
Qed.

Lemma X9_run_ends_witness :
  let w := site [Some (Sample.listing [Sample.A]); Some (Sample.listing [Sample.B])] in
  let s := Ver4.mkScraper [] Ver4.Missing [] in
  (forall p, 3 <= p -> w p = None) /\
  exists fuel : nat,
    (fuel <= Z.to_nat (3 - 1) + 3)%nat /\
    fst (fst (Ver4.run fuel w 1 s)) = true /\
    forall k, Ver4.run (fuel + k) w 1 s = Ver4.run fuel w 1 s.
Proof.
  intros w s.
  assert (H : forall p, 3 <= p -> w p = None).
  { intros p Hp. apply site_beyond. simpl. lia. }
  split; [exact H|]. exact (X9_run_ends_on_a_finite_site w 3 1 s H).
Defined.

(** X10.  [run] of ver4 only appends: after any number of passes
    [colleges_data] is what it was at the start followed by the entities
    accepted since, in the order of acceptance, and [total_scraped] is
    their number. *)
Theorem X10_run_only_appends (w : web) (fuel : nat) (start_page : Z) (s : Ver4.scraper) :
  exists added,
    Ver4.colleges_data (snd (fst (Ver4.run fuel w start_page s))) =
      Ver4.colleges_data s ++ added /\
    Ver4.total_scraped (snd (Ver4.run fuel w start_page s)) = Py.len added /\
    Forall (fun c => College_Name c <> "") added.
Proof.
  unfold Ver4.run.
  destruct (run_loop_counters w fuel s (Ver4.mkLoop 0 0 start_page))
    as ((added & A1 & A2 & A3) & _); [cbn [Ver4.empty_pages]; lia|].
  exists added. cbn [Ver4.total_scraped] in A2. auto.
Qed.

(** X11.  [run] of ver4 leaves its loop only through the [break] of the
    third empty page in a row: after any number of passes the counter
    [empty_pages] lies between 0 and 3, and the loop has been left
    exactly when it is 3. *)
Theorem X11_run_leaves_loop_at_three
    (w : web) (fuel : nat) (start_page : Z) (s : Ver4.scraper) :
  0 <= Ver4.empty_pages (snd (Ver4.run fuel w start_page s)) <= 3 /\
  (fst (fst (Ver4.run fuel w start_page s)) = true <->
   Ver4.empty_pages (snd (Ver4.run fuel w start_page s)) = 3).
Proof.
  unfold Ver4.run.
  destruct (run_loop_counters w fuel s (Ver4.mkLoop 0 0 start_page))
    as (_ & B & C); [cbn [Ver4.empty_pages]; lia|].
  destruct (fst (fst (Ver4.run_loop fuel w s (Ver4.mkLoop 0 0 start_page)))).
  - specialize (B eq_refl). split; [lia|]. split; auto.
  - specialize (C eq_refl). split; [lia|]. split; [discriminate | lia].
Qed.

(* ================================================================== *)
(** ** Stage 1: the collected URLs *)
(* ================================================================== *)

Section Stage1Facts.

Variable urljoin : string -> string -> string.
Variable fetch_page : string -> Z -> option Bs4.tag.

Lemma mem_In (x : string) (l : list string) : Bs4.mem x l = true <-> In x l.
Proof.
  unfold Bs4.mem. rewrite existsb_exists. split.
  - intros (y & Hy & E). apply String.eqb_eq in E. now subst.
  - intros H. exists x. split; [exact H | apply String.eqb_refl].
Qed.

Lemma add_url_NoDup (urls : list string) (a : Bs4.tag) :
  NoDup urls -> NoDup (Stage1.add_url urljoin urls a).
Proof.
  intros H. unfold Stage1.add_url.
  destruct (Bs4.get_attr "href" a) as [href|]; [|exact H].
  destruct (Py.truthy href); [|exact H].
  destruct (Bs4.mem _ urls) eqn:E; [exact H|].
  apply NoDup_app; [exact H | repeat constructor; intros [] |].
  intros x Hx [<- | []]. apply mem_In in Hx. congruence.
Qed.

Lemma extract_profile_urls_NoDup (soup : Bs4.tag) :
  NoDup (Stage1.extract_profile_urls urljoin soup).
Proof.
  unfold Stage1.extract_profile_urls.
  assert (G : forall tags acc, NoDup acc ->
                NoDup (fold_left (Stage1.add_url urljoin) tags acc)).
  { induction tags as [|a tags IH]; intros acc H; [exact H|].
    simpl. apply IH. now apply add_url_NoDup. }
  apply G. constructor.
Qed.

(** [drop_duplicates], started from the rows [kept] already retained. *)
Lemma drop_duplicates_from (rows : list Stage1.url_row) :
  forall kept,
    NoDup (map Stage1.college_profile_url kept) ->
    let out := fold_left
        (fun kept r =>
           if existsb (fun k => String.eqb (Stage1.college_profile_url k)
                                           (Stage1.college_profile_url r)) kept
           then kept else kept ++ [r]) rows kept in
    NoDup (map Stage1.college_profile_url out) /\
    (forall r, In r kept \/ In r rows ->
       In (Stage1.college_profile_url r) (map Stage1.college_profile_url out)) /\
    (forall r, In r out -> In r kept \/ In r rows) /\
    (exists more, out = kept ++ more).
Proof.
  induction rows as [|r0 rows IH]; intros kept Hk; cbn zeta.
  - simpl. split; [exact Hk|]. split; [|split; [auto | exists []; now rewrite app_nil_r]].
    intros r [H | []]. now apply in_map.
  - cbn [fold_left].
    destruct (existsb _ kept) eqn:E.
    + destruct (IH kept Hk) as (I1 & I2 & I3 & I4). cbn zeta in I1, I2, I3, I4.
      split; [exact I1|]. split; [|split; [|exact I4]].
      * intros r [H | [<- | H]]; [apply I2; now left | | apply I2; now right].
        apply existsb_exists in E as (k & Hk0 & Ek). apply String.eqb_eq in Ek.
        rewrite <- Ek. apply I2. now left.
      * intros r H. destruct (I3 r H) as [H' | H']; [now left | right; now right].
    + assert (Hk' : NoDup (map Stage1.college_profile_url (kept ++ [r0]))).
      { rewrite map_app. apply NoDup_app; [exact Hk | repeat constructor; intros [] |].
        intros x Hx [<- | []]. apply in_map_iff in Hx as (k & Ek & Hin).
        assert (existsb (fun k => String.eqb (Stage1.college_profile_url k)
                                             (Stage1.college_profile_url r0)) kept = true).
        { apply existsb_exists. exists k. split; [exact Hin | now apply String.eqb_eq]. }
        congruence. }
      destruct (IH (kept ++ [r0]) Hk') as (I1 & I2 & I3 & (more & I4)).
      cbn zeta in I1, I2, I3, I4.
      split; [exact I1|]. split; [|split].
      * intros r [H | [<- | H]]; apply I2.
        -- left. apply in_or_app. now left.
        -- left. apply in_or_app. right. now left.
        -- now right.
      * intros r H. destruct (I3 r H) as [H' | H']; [|right; now right].
        apply in_app_or in H' as [H' | [<- | []]]; [now left | right; now left].
      * exists ([r0] ++ more). now rewrite I4, <- app_assoc.
Qed.

(** Where the rows of a stream come from. *)
Lemma stream_rows_origin (name base : string) (pages : list Z) :
  forall s r,
    In r (Stage1.collected (Stage1.stream_pages urljoin fetch_page name base pages s)) ->
    In r (Stage1.collected s) \/
    (Stage1.stream r = name /\ Stage1.source_listing_url r = base /\
     exists page soup,
       In page pages /\ fetch_page base page = Some soup /\
       In (Stage1.college_profile_url r) (Stage1.extract_profile_urls urljoin soup)).
Proof.
  induction pages as [|page rest IH]; intros s r H; [now left|].
  cbn [Stage1.stream_pages] in H.
  assert (Hrest : forall s', In r (Stage1.collected
                     (Stage1.stream_pages urljoin fetch_page name base rest s')) ->
                   Stage1.collected s' = Stage1.collected s ->
                   In r (Stage1.collected s) \/
                   (Stage1.stream r = name /\ Stage1.source_listing_url r = base /\
                    exists page0 soup,
                      In page0 (page :: rest) /\ fetch_page base page0 = Some soup /\
                      In (Stage1.college_profile_url r)
                         (Stage1.extract_profile_urls urljoin soup))).
  { intros s' H' E. destruct (IH s' r H') as [K | (K1 & K2 & p0 & sp & K3 & K4 & K5)].
    - left. now rewrite <- E.
    - right. split; [exact K1|]. split; [exact K2|]. exists p0, sp. simpl. auto. }
  destruct (fetch_page base page) as [soup|] eqn:Ef.
  - destruct (Stage1.extract_profile_urls urljoin soup) as [|u urls] eqn:Eu.
    + destruct (Stage1.empty_pages s + 1 >=? 3); [now left | now apply (Hrest _ H)].
    + destruct (IH _ r H) as [K | (K1 & K2 & p0 & sp & K3 & K4 & K5)].
      * cbn [Stage1.collected] in K. apply in_app_or in K as [K | K]; [now left|].
        right. apply in_map_iff in K as (u0 & <- & Hu).
        cbn [Stage1.stream Stage1.source_listing_url Stage1.college_profile_url].
        split; [reflexivity|]. split; [reflexivity|].
        exists page, soup. rewrite Eu. simpl. auto.
      * right. split; [exact K1|]. split; [exact K2|]. exists p0, sp. simpl. auto.
  - destruct (Stage1.empty_pages s + 1 >=? 3); [now left | now apply (Hrest _ H)].
Qed.

End Stage1Facts.

(** X12.  Stage 1 returns every college once.  [extract_profile_urls]
    lists no URL twice; [drop_duplicates] keeps, for every URL among the
    rows, exactly one row, the first, and adds none; so the data frame
    [collect_college_urls] writes has pairwise distinct profile URLs. *)
Theorem X12_collected_urls_are_distinct
    (urljoin : string -> string -> string)
    (fetch_page : string -> Z -> option Bs4.tag) :
  (forall soup, NoDup (Stage1.extract_profile_urls urljoin soup)) /\
  (forall rows,
     NoDup (map Stage1.college_profile_url (Stage1.drop_duplicates rows)) /\
     (forall r, In r rows ->
        In (Stage1.college_profile_url r)
           (map Stage1.college_profile_url (Stage1.drop_duplicates rows))) /\
     (forall r, In r (Stage1.drop_duplicates rows) -> In r rows)) /\
  NoDup (map Stage1.college_profile_url
           (Stage1.collect_college_urls urljoin fetch_page)).
Proof.
  assert (D : forall rows,
     NoDup (map Stage1.college_profile_url (Stage1.drop_duplicates rows)) /\
     (forall r, In r rows ->
        In (Stage1.college_profile_url r)
           (map Stage1.college_profile_url (Stage1.drop_duplicates rows))) /\
     (forall r, In r (Stage1.drop_duplicates rows) -> In r rows)).
  { intros rows. unfold Stage1.drop_duplicates.
    destruct (drop_duplicates_from rows [] (NoDup_nil _)) as (I1 & I2 & I3 & _).
    cbn zeta in I1, I2, I3. split; [exact I1|]. split.
    - intros r H. apply I2. now right.
    - intros r H. destruct (I3 r H) as [[] | H']. exact H'. }
  split; [apply extract_profile_urls_NoDup|]. split; [exact D|].
  unfold Stage1.collect_college_urls. apply D.
Qed.

(** X13.  Every row stage 1 collects can be traced: a row in the
    result of the page loop of a stream either was collected before the
    stream started, or carries the name and the listing URL of that
    stream and a profile URL that [extract_profile_urls] found on a page
    of the stream whose fetch succeeded. *)
Theorem X13_collected_rows_have_an_origin
    (urljoin : string -> string -> string)
    (fetch_page : string -> Z -> option Bs4.tag)
    (name base : string) (collected0 : list Stage1.url_row) (r : Stage1.url_row)
    (Hr : In r (Stage1.collected
                  (Stage1.collect_stream urljoin fetch_page name base collected0))) :
  In r collected0 \/
  (Stage1.stream r = name /\ Stage1.source_listing_url r = base /\
   exists page soup,
     1 <= page <= Stage1.MAX_PAGES_PER_STREAM /\
     fetch_page base page = Some soup /\
     In (Stage1.college_profile_url r) (Stage1.extract_profile_urls urljoin soup)).
Proof.
  unfold Stage1.collect_stream in Hr.
  destruct (stream_rows_origin urljoin fetch_page name base _ _ r Hr)
    as [H | (H1 & H2 & page & soup & H3 & H4 & H5)]; [now left|].
  right. split; [exact H1|]. split; [exact H2|]. exists page, soup.
  split; [|split; assumption].
  unfold Py.range in H3. apply in_map_iff in H3 as (i & <- & Hi).
  apply in_seq in Hi. unfold Stage1.MAX_PAGES_PER_STREAM in *. lia.
Qed.

Lemma X13_collected_rows_witness :
  let urljoin := fun base ref : string => (base ++ ref)%string in
  let page1 := Bs4.document
      [Bs4.Elem "a" [("href", "/college/25703-iit-madras?src=list")] [Bs4.Text "IITM"]] in
  let fetch := fun (_ : string) (p : Z) => if p =? 1 then Some page1 else None in
  let r := Stage1.mkUrlRow "https://collegedunia.com/college/25703-iit-madras"
             "Science" "https://collegedunia.com/science/science-colleges" in
  In r (Stage1.collected
          (Stage1.collect_stream urljoin fetch "Science"
             "https://collegedunia.com/science/science-colleges" [])) /\
  (In r [] \/
   (Stage1.stream r = "Science" /\
    Stage1.source_listing_url r = "https://collegedunia.com/science/science-colleges" /\
    exists page soup,
      1 <= page <= Stage1.MAX_PAGES_PER_STREAM /\
      fetch "https://collegedunia.com/science/science-colleges" page = Some soup /\
      In (Stage1.college_profile_url r) (Stage1.extract_profile_urls urljoin soup))).
Proof.
  intros urljoin page1 fetch r.
  assert (H : In r (Stage1.collected
          (Stage1.collect_stream urljoin fetch "Science"
             "https://collegedunia.com/science/science-colleges" []))).
  { vm_compute. left. reflexivity. }
  split; [exact H|].
  exact (X13_collected_rows_have_an_origin urljoin fetch "Science"
           "https://collegedunia.com/science/science-colleges" [] r H).
Defined.

(* ================================================================== *)
(** ** The test run of scarpingtest.py *)
(* ================================================================== *)

Section TestRun.

Lemma scrapingtest_scrape_listing_page_eq (w : web) (p : Z) (d : list college) :
  ScrapingTest.scrape_listing_page w p d =
  (d ++ filter named (page_candidates ScrapingTest.parse_college_row w p),
   Py.len (filter named (page_candidates ScrapingTest.parse_college_row w p))).
Proof.
  unfold ScrapingTest.scrape_listing_page, page_candidates.
  destruct (w p) as [soup|]; [|simpl; now rewrite app_nil_r].
  destruct (find_college_rows soup) as [|tr rows] eqn:E.
  - simpl. now rewrite app_nil_r.
  - change ScrapingTest.keep_named with Ver3.keep_named. apply fold_keep_named.
Qed.

Lemma test_run_pages (w : web) (pages : list Z) :
  forall d t,
    fold_left (ScrapingTest.run_page w) pages (d, t) =
    (d ++ flat_map (fun p => filter named
                               (page_candidates ScrapingTest.parse_college_row w p)) pages,
     t + Py.len (flat_map (fun p => filter named
                               (page_candidates ScrapingTest.parse_college_row w p)) pages)).
Proof.
  induction pages as [|p pages IH]; intros d t.
  - simpl. rewrite app_nil_r. f_equal. unfold Py.len. simpl. lia.
  - cbn [fold_left flat_map]. unfold ScrapingTest.run_page at 2. cbn [fst snd].
    rewrite scrapingtest_scrape_listing_page_eq, IH, <- app_assoc.
    f_equal. unfold Py.len. rewrite length_app. lia.
Qed.

End TestRun.

(** X14.  The test run of scarpingtest.py never stops early: it scrapes
    every page from 1 to [max_pages], failed and empty ones included,
    whatever [expected_total] is; it returns [colleges_data] followed by
    the named rows of these pages in page order, and the total it logs is
    their number. *)
Theorem X14_test_run_scrapes_every_page
    (w : web) (max_pages expected_total : Z) (data : list college) :
  ScrapingTest.run w max_pages expected_total data =
  (data ++ flat_map (fun p => filter named
                       (page_candidates ScrapingTest.parse_college_row w p))
                    (Py.range 1 (max_pages + 1)),
   Py.len (flat_map (fun p => filter named
                       (page_candidates ScrapingTest.parse_college_row w p))
                    (Py.range 1 (max_pages + 1)))).
Proof. unfold ScrapingTest.run. now rewrite test_run_pages. Qed.

(* ================================================================== *)
(** ** The merged sheet *)
(* ================================================================== *)

Section MergedFacts.

Variable row : Type.
Variable row_eqb : row -> row -> bool.
Hypothesis row_eqb_eq : forall a b, row_eqb a b = true <-> a = b.

Lemma same_row_eq (a b : row * string) :
  MergedSheet.same_row row row_eqb a b = true <-> a = b.
Proof.
  unfold MergedSheet.same_row. rewrite andb_true_iff, row_eqb_eq, String.eqb_eq.
  destruct a, b; simpl. split; [intros [-> ->]; reflexivity | intros [= -> ->]; auto].
Qed.

Lemma drop_duplicates_rows (rows : list (row * string)) :
  forall kept, NoDup kept ->
    let out := fold_left
        (fun kept r => if existsb (MergedSheet.same_row row row_eqb r) kept
                       then kept else kept ++ [r]) rows kept in
    NoDup out /\ (forall x, In x out <-> In x kept \/ In x rows).
Proof.
  induction rows as [|r rows IH]; intros kept Hk; cbn zeta.
  - simpl. split; [exact Hk | tauto].
  - cbn [fold_left]. destruct (existsb _ kept) eqn:E.
    + destruct (IH kept Hk) as [I1 I2]. cbn zeta in I1, I2. split; [exact I1|].
      intros x. rewrite I2. simpl.
      apply existsb_exists in E as (k & Hk0 & Ek). apply same_row_eq in Ek. subst k.
      split; [tauto|]. intros [H | [<- | H]]; auto.
    + assert (Hk' : NoDup (kept ++ [r])).
      { apply NoDup_app; [exact Hk | repeat constructor; intros [] |].
        intros x Hx [Hxr | []]. subst x.
        assert (existsb (MergedSheet.same_row row row_eqb r) kept = true).
        { apply existsb_exists. exists r. split; [exact Hx | now apply same_row_eq]. }
        congruence. }
      destruct (IH _ Hk') as [I1 I2]. cbn zeta in I1, I2. split; [exact I1|].
      intros x. rewrite I2, in_app_iff. simpl. tauto.
Qed.

End MergedFacts.

(** X15.  merged_sheet.py removes duplicates only within a file.  When
    no workbook is left after the lock files are set aside, the script
    raises.  Otherwise the merged frame has no two equal rows and holds
    exactly the rows of the workbooks, each with the name of its file;
    since that name is part of the row, a row that two files share is
    kept once for each of them. *)
Theorem X15_merge_keeps_rows_of_different_files
    (row : Type) (row_eqb : row -> row -> bool)
    (read_excel : string -> list row) (found : list string)
    (Heq : forall a b, row_eqb a b = true <-> a = b) :
  (MergedSheet.excel_files found = [] ->
   MergedSheet.merged row row_eqb read_excel found = None) /\
  (MergedSheet.excel_files found <> [] ->
   exists out,
     MergedSheet.merged row row_eqb read_excel found = Some out /\
     NoDup out /\
     (forall r name,
        In (r, name) out <->
        exists file, In file found /\
                     String.prefix "~$" (MergedSheet.basename file) = false /\
                     MergedSheet.basename file = name /\ In r (read_excel file)) /\
     (forall r f1 f2,
        In f1 (MergedSheet.excel_files found) -> In f2 (MergedSheet.excel_files found) ->
        In r (read_excel f1) -> In r (read_excel f2) ->
        MergedSheet.basename f1 <> MergedSheet.basename f2 ->
        exists l1 l2 l3 a b,
          out = l1 ++ a :: l2 ++ b :: l3 /\ fst a = r /\ fst b = r /\ snd a <> snd b)).
Proof.
  unfold MergedSheet.merged. split; [now intros ->|].
  intros Hne.
  destruct (MergedSheet.excel_files found) as [|f0 fs] eqn:Ef; [contradiction|].
  rewrite <- Ef. eexists. split; [reflexivity|].
  unfold MergedSheet.drop_duplicates.
  destruct (drop_duplicates_rows row row_eqb Heq
              (flat_map (MergedSheet.with_source row read_excel)
                 (MergedSheet.excel_files found)) [] (NoDup_nil _)) as [I1 I2].
  cbn zeta in I1, I2.
  assert (M : forall r name,
     In (r, name) (flat_map (MergedSheet.with_source row read_excel)
                     (MergedSheet.excel_files found)) <->
     exists file, In file found /\
                  String.prefix "~$" (MergedSheet.basename file) = false /\
                  MergedSheet.basename file = name /\ In r (read_excel file)).
  { intros r name. rewrite in_flat_map. unfold MergedSheet.excel_files. split.
    - intros (file & Hf & Hr). apply filter_In in Hf as [Hf Hp].
      apply negb_true_iff in Hp. unfold MergedSheet.with_source in Hr.
      apply in_map_iff in Hr as (r' & [= -> <-] & Hr). eauto.
    - intros (file & Hf & Hp & <- & Hr). exists file. split.
      + apply filter_In. split; [exact Hf | now apply negb_true_iff].
      + unfold MergedSheet.with_source. apply in_map_iff. eauto. }
  split; [exact I1|]. split.
  - intros r name. rewrite I2, <- M. simpl. tauto.
  - intros r f1 f2 H1 H2 R1 R2 Hd.
    assert (In1 : forall f, In f (MergedSheet.excel_files found) -> In r (read_excel f) ->
              In (r, MergedSheet.basename f)
                 (fold_left
                    (fun kept r0 =>
                       if existsb (MergedSheet.same_row row row_eqb r0) kept
                       then kept else kept ++ [r0])
                    (flat_map (MergedSheet.with_source row read_excel)
                       (MergedSheet.excel_files found)) [])).
    { intros f Hf Hr. apply I2. right. apply in_flat_map. exists f. split; [exact Hf|].
      unfold MergedSheet.with_source. apply in_map_iff. eauto. }
    pose proof (In1 f1 H1 R1) as A. pose proof (In1 f2 H2 R2) as B.
    apply in_split in A as (l1 & l2 & EA). rewrite EA in B.
    apply in_app_or in B as [B | [B | B]].
    + apply in_split in B as (m1 & m2 & EB). subst l1.
      exists m1, m2, l2, (r, MergedSheet.basename f2), (r, MergedSheet.basename f1).
      rewrite EA, <- app_assoc. simpl. repeat split; auto.
    + injection B as B. congruence.
    + apply in_split in B as (m1 & m2 & EB). subst l2.
      exists l1, m1, m2, (r, MergedSheet.basename f1), (r, MergedSheet.basename f2).
      rewrite EA. repeat split; auto.
Qed.

Lemma X15_merge_keeps_rows_witness :
  let read := fun f : string => if String.eqb f "./law_colleges.xlsx"
                                then ["IIT Madras"; "NLSIU"] else ["IIT Madras"] in
  let found := ["./law_colleges.xlsx"; "./~$law_colleges.xlsx"; "./colleges_data.xlsx"] in
  (forall a b : string, String.eqb a b = true <-> a = b) /\
  MergedSheet.excel_files found <> [] /\
  MergedSheet.merged string String.eqb read found =
    Some [("IIT Madras", "law_colleges.xlsx"); ("NLSIU", "law_colleges.xlsx");
          ("IIT Madras", "colleges_data.xlsx")] /\
  MergedSheet.merged string String.eqb read ["./~$law_colleges.xlsx"] = None.
Proof.
  intros read found.
  assert (Hne : MergedSheet.excel_files found <> []) by (vm_compute; discriminate).
  destruct (X15_merge_keeps_rows_of_different_files string String.eqb read found
              String.eqb_eq) as (_ & H).
  destruct (H Hne) as (out & E & _).
  destruct (X15_merge_keeps_rows_of_different_files string String.eqb read
              ["./~$law_colleges.xlsx"] String.eqb_eq) as (H0 & _).
  split; [exact String.eqb_eq|]. split; [exact Hne|].
  split; [rewrite E; vm_compute in E; symmetry; exact E | apply H0; reflexivity].
Defined.

(* ================================================================== *)
(** ** ver4 against ver3 *)
(* ================================================================== *)

Section AgainstVer3.

Lemma filter_length_le {A} (f : A -> bool) (l : list A) :
  (length (filter f l) <= length l)%nat.
Proof.
  induction l as [|a l IH]; simpl; [lia|]. destruct (f a); simpl; lia.
Qed.

Lemma filter_all {A} (f : A -> bool) (l : list A) :
  (forall x, In x l -> f x = true) -> filter f l = l.
Proof.
  induction l as [|a l IH]; intros H; simpl; [reflexivity|].
  rewrite (H a (or_introl eq_refl)). f_equal. apply IH. intros x Hx. apply H. now right.
Qed.

End AgainstVer3.

(** X16.  ver4 accepts from a page what ver3 accepts, minus the rows
    whose name is already stored: for the same fetched page the entities
    ver4 appends are those ver3 appends with the stored names filtered
    out, in the same order, so ver4's count never exceeds ver3's; and
    when no named row of the page has a stored name, both append the
    same entities. *)
Theorem X16_ver4_accepts_a_part_of_ver3
    (w : web) (p : Z) (s : Ver4.scraper) (d : list college) :
  exists added3 added4,
    fst (Ver3.scrape_listing_page w p d) = d ++ added3 /\
    Ver4.colleges_data (fst (Ver4.scrape_listing_page w p s)) =
      Ver4.colleges_data s ++ added4 /\
    added4 = filter (fun c => negb (Ver4.name_present (College_Name c)
                                      (Ver4.colleges_data s))) added3 /\
    snd (Ver4.scrape_listing_page w p s) <= snd (Ver3.scrape_listing_page w p d) /\
    ((forall c, In c added3 ->
        Ver4.name_present (College_Name c) (Ver4.colleges_data s) = false) ->
     added4 = added3).
Proof.
  exists (filter named (page_candidates Ver3.parsed w p)),
         (filter (is_new (Ver4.colleges_data s)) (page_candidates Ver4.parsed w p)).
  rewrite ver3_scrape_listing_page_eq. cbn [fst snd].
  destruct (page_appends w p s) as (new & _).
  assert (E4 : Ver4.colleges_data (fst (Ver4.scrape_listing_page w p s)) =
               Ver4.colleges_data s ++
               filter (is_new (Ver4.colleges_data s)) (page_candidates Ver4.parsed w p) /\
               snd (Ver4.scrape_listing_page w p s) =
               Py.len (filter (is_new (Ver4.colleges_data s))
                         (page_candidates Ver4.parsed w p))).
  { rewrite ver4_scrape_listing_page_eq.
    destruct (w p) eqn:Ew; cbn [fst snd Ver4.colleges_data]; [auto|].
    unfold page_candidates. rewrite Ew. simpl. now rewrite app_nil_r. }
  destruct E4 as [E4 N4]. rewrite N4.
  change Ver4.parsed with Ver3.parsed.
  rewrite is_new_filter_named.
  split; [reflexivity|]. split; [rewrite E4; change Ver4.parsed with Ver3.parsed;
                                 now rewrite is_new_filter_named|].
  split; [reflexivity|]. split.
  - unfold Py.len. apply inj_le. apply filter_length_le.
  - intros H. apply filter_all. intros c Hc. now rewrite (H c Hc).
Qed.
